(** * liver_atlas: spatial transforms, reslicing and duplicate suppression

    A shallow embedding of the geometric core of the viewer:
    [geometry_utils.py] (signatures and the similarity comparator),
    [transforms.py] (the orientation table [SliceOrder]),
    [slice_utils.py] and [callbacks.py] (slice placement, mode toggle) and
    [segmentation_utils.py] (the reconstruction loop).

    Conventions.  Python [int] is [Z]; Python [float] is idealised as a real
    number ([R]), so rounding, infinities and NaN are outside the model.
    Python exceptions are values of [py_exception] carried by the [result]
    monad; the division operator raises [ZeroDivisionError] on a zero divisor
    as in Python.  The VTK classes are not part of the repository; the few
    operations the code calls on them are modelled after the VTK
    documentation and are marked as such. *)

From Stdlib Require Import Reals Lra Lia ZArith Ascii String.
From stdpp Require Import base gmap strings pretty list list_numbers.

(** ** Python exceptions and the result monad *)

Inductive py_exception : Type :=
| ZeroDivisionError
| ValueError
| AttributeError
| Exception (msg : string).

Inductive result (A : Type) : Type :=
| Ok (a : A)
| Raise (e : py_exception).
Arguments Ok {A} a.
Arguments Raise {A} e.

Definition bind {A B : Type} (m : result A) (k : A -> result B) : result B :=
  match m with
  | Ok a => k a
  | Raise e => Raise e
  end.

Notation "'let*' x ':=' m 'in' k" := (bind m (fun x => k))
  (at level 10, x name, m at level 100, k at level 200).
Notation "'let*' ' p ':=' m 'in' k" :=
  (bind m (fun x => match x with p => k end))
  (at level 10, p strict pattern, m at level 100, k at level 200).

Definition raises {A : Type} (m : result A) : Prop :=
  match m with
  | Ok _ => False
  | Raise _ => True
  end.

(** ** Numbers *)

Module Num.
Local Open Scope R_scope.

Definition Reqb (x y : R) : bool := if Req_dec_T x y then true else false.
Definition Rgeb (x y : R) : bool := if Rge_dec x y then true else false.
Definition Rgtb (x y : R) : bool := if Rgt_dec x y then true else false.

(** [x / y] on floats and on ints (true division). *)
Definition py_div (x y : R) : result R :=
  if Reqb y 0 then Raise ZeroDivisionError else Ok (x / y).

(** [math.sqrt(x)]. *)
Definition math_sqrt (x : R) : result R :=
  if Rgtb 0 x then Raise ValueError else Ok (sqrt x).

(** [max(0, x)]: the builtin keeps its first argument unless a later one is
    strictly greater. *)
Definition py_max0 (x : R) : R := if Rgtb x 0 then x else 0.

(** [min(x, y)] and [max(x, y)] on floats. *)
Definition py_min (x y : R) : R := if Rgtb x y then y else x.
Definition py_max (x y : R) : R := if Rgtb y x then y else x.

(** [int(x)]: truncation toward zero. *)
Definition py_int (x : R) : Z :=
  if Rgeb x 0 then Int_part x else (- Int_part (- x))%Z.

(** [range(a, b)]. *)
Definition py_range (a b : Z) : list Z := seqZ a (b - a).

End Num.
Export Num.

(** ** geometry_utils.py *)

Module Geometry.
Local Open Scope R_scope.

(** The 6-tuple returned by [GetBounds()]:
    [(x_min, x_max, y_min, y_max, z_min, z_max)]. *)
Record Bounds : Type := mkBounds {
  b0 : R; b1 : R; b2 : R; b3 : R; b4 : R; b5 : R
}.

(** The observable part of a [vtkPolyData] the code reads. *)
Record vtkPolyData : Type := mkPolyData {
  GetNumberOfPoints : nat;
  GetNumberOfCells : nat;
  GetBounds : Bounds
}.

(** VTK reports [min <= max] on every axis for a data set that has points;
    an empty one reports the uninitialised box [(1,-1,1,-1,1,-1)]. *)
Definition bounds_ordered (b : Bounds) : Prop :=
  b0 b <= b1 b /\ b2 b <= b3 b /\ b4 b <= b5 b.

Definition polydata_wf (pd : vtkPolyData) : Prop :=
  GetNumberOfPoints pd <> 0%nat -> bounds_ordered (GetBounds pd).

(** The dictionary built by [calculate_polydata_signature]; its four keys
    are fixed, so it is a record. *)
Record signature : Type := mkSignature {
  num_points : Z;
  num_cells : Z;
  volume : R;
  bounds : Bounds
}.

Definition box_volume (b : Bounds) : R :=
  (b1 b - b0 b) * (b3 b - b2 b) * (b5 b - b4 b).

Definition calculate_polydata_signature (polydata : vtkPolyData) : signature :=
  let num_points := Z.of_nat (GetNumberOfPoints polydata) in
  let num_cells := Z.of_nat (GetNumberOfCells polydata) in
  let bounds := GetBounds polydata in
  let volume := (b1 bounds - b0 bounds) * (b3 bounds - b2 bounds)
                * (b5 bounds - b4 bounds) in
  {| num_points := num_points; num_cells := num_cells;
     volume := volume; bounds := bounds |}.

(** The intermediate quantities of [are_polydata_similar], in the order the
    function computes them. *)
Definition center (b : Bounds) : list R :=
  [ (b0 b + b1 b) / 2; (b2 b + b3 b) / 2; (b4 b + b5 b) / 2 ].

(** [sum(...)] over a generator: left to right, starting from [0]. *)
Definition py_sum (l : list R) : R := fold_left Rplus l 0.

Definition center_dist (bounds1 bounds2 : Bounds) : result R :=
  math_sqrt (py_sum (zip_with (fun c1 c2 => (c1 - c2) ^ 2)
                              (center bounds1) (center bounds2))).

Definition avg_size (bounds1 bounds2 : Bounds) : R :=
  (Rabs (b1 bounds1 - b0 bounds1) +
   Rabs (b3 bounds1 - b2 bounds1) +
   Rabs (b5 bounds1 - b4 bounds1) +
   Rabs (b1 bounds2 - b0 bounds2) +
   Rabs (b3 bounds2 - b2 bounds2) +
   Rabs (b5 bounds2 - b4 bounds2)) / 6.

Definition points_ratio (sig1 sig2 : signature) : result R :=
  py_div (IZR (Z.min (num_points sig1) (num_points sig2)))
         (IZR (Z.max (num_points sig1) (num_points sig2))).

Definition cells_ratio (sig1 sig2 : signature) : result R :=
  py_div (IZR (Z.min (num_cells sig1) (num_cells sig2)))
         (IZR (Z.max (num_cells sig1) (num_cells sig2))).

Definition volume_ratio (sig1 sig2 : signature) : result R :=
  py_div (py_min (volume sig1) (volume sig2))
         (py_max (volume sig1) (volume sig2)).

Definition center_similarity (bounds1 bounds2 : Bounds) : result R :=
  let* center_dist := center_dist bounds1 bounds2 in
  let avg_size := avg_size bounds1 bounds2 in
  if Reqb avg_size 0 then Ok 1
  else
    let* q := py_div center_dist avg_size in
    Ok (py_max0 (1 - q)).

(** The fixed bar on the closeness of the centres. *)
Definition center_bar : R := 95 / 100.


Definition are_polydata_similar (sig1 sig2 : signature) (threshold : R)
  : result bool :=
  if (num_points sig1 =? 0)%Z || (num_points sig2 =? 0)%Z then Ok false else
  if (num_cells sig1 =? 0)%Z || (num_cells sig2 =? 0)%Z then Ok false else
  if Reqb (volume sig1) 0 || Reqb (volume sig2) 0 then Ok false else
  let* points_ratio := points_ratio sig1 sig2 in
  let* cells_ratio := cells_ratio sig1 sig2 in
  let* volume_ratio := volume_ratio sig1 sig2 in
  let* center_similarity := center_similarity (bounds sig1) (bounds sig2) in
  if Rgeb points_ratio threshold &&
     Rgeb cells_ratio threshold &&
     Rgeb volume_ratio threshold &&
     Rgeb center_similarity center_bar
  then Ok true
  else Ok false.

End Geometry.

(** ** VTK matrices and transforms

    [vtkMatrix4x4] and [vtkTransform] belong to VTK, not to the repository.
    Their operations follow the VTK documentation: a transform holds one
    4x4 matrix, starts as the identity, and works in its default
    pre-multiply mode, in which every operation [A] replaces the current
    matrix [M] by [M * A].  Points are column vectors, so the operation
    added last acts on a point first. *)

Module Vtk.
Local Open Scope R_scope.

Definition vtkMatrix4x4 : Type := list (list R).

Definition Zero : vtkMatrix4x4 := replicate 4 (replicate 4 0).

Definition SetElement (i j : nat) (v : R) (m : vtkMatrix4x4) : vtkMatrix4x4 :=
  alter (fun row => <[j := v]> row) i m.

Definition GetElement (m : vtkMatrix4x4) (i j : nat) : R :=
  default 0 (row ← m !! i; row !! j).

Definition Identity4 : vtkMatrix4x4 :=
  SetElement 3 3 1 (SetElement 2 2 1 (SetElement 1 1 1 (SetElement 0 0 1 Zero))).

(** [vtkMatrix4x4::Multiply4x4(a, b)]: the product [a * b]. *)
Definition Multiply4x4 (a b : vtkMatrix4x4) : vtkMatrix4x4 :=
  (fun i =>
     (fun j =>
        GetElement a i 0 * GetElement b 0 j + GetElement a i 1 * GetElement b 1 j +
        GetElement a i 2 * GetElement b 2 j + GetElement a i 3 * GetElement b 3 j)
     <$> seq 0 4)
  <$> seq 0 4.

Definition scale_matrix (x y z : R) : vtkMatrix4x4 :=
  SetElement 2 2 z (SetElement 1 1 y (SetElement 0 0 x Identity4)).

Definition translate_matrix (x y z : R) : vtkMatrix4x4 :=
  SetElement 2 3 z (SetElement 1 3 y (SetElement 0 3 x Identity4)).

Definition radians (degrees : R) : R := degrees * PI / 180.

(** Right-handed rotations about the coordinate axes, angle in degrees. *)
Definition rotate_x_matrix (angle : R) : vtkMatrix4x4 :=
  let c := cos (radians angle) in
  let s := sin (radians angle) in
  SetElement 2 2 c (SetElement 2 1 s
    (SetElement 1 2 (- s) (SetElement 1 1 c Identity4))).

Definition rotate_y_matrix (angle : R) : vtkMatrix4x4 :=
  let c := cos (radians angle) in
  let s := sin (radians angle) in
  SetElement 2 2 c (SetElement 2 0 (- s)
    (SetElement 0 2 s (SetElement 0 0 c Identity4))).

Definition rotate_z_matrix (angle : R) : vtkMatrix4x4 :=
  let c := cos (radians angle) in
  let s := sin (radians angle) in
  SetElement 1 1 c (SetElement 1 0 s
    (SetElement 0 1 (- s) (SetElement 0 0 c Identity4))).

Record vtkTransform : Type := mkTransform { GetMatrix : vtkMatrix4x4 }.

(** [vtkTransform()] *)
Definition new_vtkTransform : vtkTransform := {| GetMatrix := Identity4 |}.

Definition Identity (t : vtkTransform) : vtkTransform := new_vtkTransform.

Definition Concatenate (m : vtkMatrix4x4) (t : vtkTransform) : vtkTransform :=
  {| GetMatrix := Multiply4x4 (GetMatrix t) m |}.

(** [SetMatrix] resets to the identity and concatenates the matrix. *)
Definition SetMatrix (m : vtkMatrix4x4) (t : vtkTransform) : vtkTransform :=
  Concatenate m (Identity t).

Definition Scale (x y z : R) (t : vtkTransform) : vtkTransform :=
  Concatenate (scale_matrix x y z) t.

Definition Translate (x y z : R) (t : vtkTransform) : vtkTransform :=
  Concatenate (translate_matrix x y z) t.

Definition RotateX (angle : R) (t : vtkTransform) : vtkTransform :=
  Concatenate (rotate_x_matrix angle) t.

Definition RotateY (angle : R) (t : vtkTransform) : vtkTransform :=
  Concatenate (rotate_y_matrix angle) t.

Definition RotateZ (angle : R) (t : vtkTransform) : vtkTransform :=
  Concatenate (rotate_z_matrix angle) t.

Definition point3 : Type := (R * R * R)%type.

(** [TransformPoint]: the matrix times the column vector [(x, y, z, 1)]. *)
Definition MultiplyPoint (m : vtkMatrix4x4) (p : point3) : point3 :=
  let '(x, y, z) := p in
  (GetElement m 0 0 * x + GetElement m 0 1 * y + GetElement m 0 2 * z + GetElement m 0 3,
   GetElement m 1 0 * x + GetElement m 1 1 * y + GetElement m 1 2 * z + GetElement m 1 3,
   GetElement m 2 0 * x + GetElement m 2 1 * y + GetElement m 2 2 * z + GetElement m 2 3).

Definition TransformPoint (t : vtkTransform) (p : point3) : point3 :=
  MultiplyPoint (GetMatrix t) p.

End Vtk.

(** ** transforms.py *)

Module Transforms.
Import Vtk.
Local Open Scope R_scope.

Record SliceOrder : Type := mkSliceOrder {
  si_mat : vtkMatrix4x4;
  is_mat : vtkMatrix4x4;
  lr_mat : vtkMatrix4x4;
  rl_mat : vtkMatrix4x4;
  hf_mat : vtkMatrix4x4;
  transform : gmap string vtkTransform
}.

Definition init_si_mat : vtkMatrix4x4 :=
  SetElement 3 3 1 (SetElement 2 1 (-1) (SetElement 1 2 1 (SetElement 0 0 1 Zero))).

Definition init_is_mat : vtkMatrix4x4 :=
  SetElement 3 3 1 (SetElement 2 1 (-1) (SetElement 1 2 (-1) (SetElement 0 0 1 Zero))).

Definition init_lr_mat : vtkMatrix4x4 :=
  SetElement 3 3 1 (SetElement 2 0 1 (SetElement 1 1 (-1) (SetElement 0 2 (-1) Zero))).

Definition init_rl_mat : vtkMatrix4x4 :=
  SetElement 3 3 1 (SetElement 2 0 1 (SetElement 1 1 (-1) (SetElement 0 2 1 Zero))).

Definition init_hf_mat : vtkMatrix4x4 :=
  SetElement 3 3 1 (SetElement 2 2 (-1) (SetElement 1 1 1 (SetElement 0 0 (-1) Zero))).

Definition si_trans : vtkTransform := SetMatrix init_si_mat new_vtkTransform.
Definition is_trans : vtkTransform := SetMatrix init_is_mat new_vtkTransform.
Definition ap_trans : vtkTransform := Scale 1 (-1) 1 new_vtkTransform.
Definition pa_trans : vtkTransform := Scale 1 (-1) (-1) new_vtkTransform.
Definition lr_trans : vtkTransform := SetMatrix init_lr_mat new_vtkTransform.
Definition rl_trans : vtkTransform := SetMatrix init_rl_mat new_vtkTransform.
Definition hf_trans : vtkTransform := SetMatrix init_hf_mat new_vtkTransform.

Definition hf_si_trans : vtkTransform :=
  Concatenate init_si_mat (SetMatrix init_hf_mat new_vtkTransform).
Definition hf_is_trans : vtkTransform :=
  Concatenate init_is_mat (SetMatrix init_hf_mat new_vtkTransform).
Definition hf_ap_trans : vtkTransform :=
  Scale 1 (-1) 1 (SetMatrix init_hf_mat new_vtkTransform).
Definition hf_pa_trans : vtkTransform :=
  Scale 1 (-1) (-1) (SetMatrix init_hf_mat new_vtkTransform).
Definition hf_lr_trans : vtkTransform :=
  Concatenate init_lr_mat (SetMatrix init_hf_mat new_vtkTransform).
Definition hf_rl_trans : vtkTransform :=
  Concatenate init_rl_mat (SetMatrix init_hf_mat new_vtkTransform).
Definition z_trans : vtkTransform := Scale 0 0 0 new_vtkTransform.

(** [SliceOrder.__init__]: the dictionary is filled in source order. *)
Definition SliceOrder_init : SliceOrder :=
  let transform : gmap string vtkTransform := ∅ in
  let transform := <["si" := si_trans]> transform in
  let transform := <["is" := is_trans]> transform in
  let transform := <["ap" := ap_trans]> transform in
  let transform := <["pa" := pa_trans]> transform in
  let transform := <["lr" := lr_trans]> transform in
  let transform := <["rl" := rl_trans]> transform in
  let transform := <["hf" := hf_trans]> transform in
  let transform := <["hfsi" := hf_si_trans]> transform in
  let transform := <["hfis" := hf_is_trans]> transform in
  let transform := <["hfap" := hf_ap_trans]> transform in
  let transform := <["hfpa" := hf_pa_trans]> transform in
  let transform := <["hflr" := hf_lr_trans]> transform in
  let transform := <["hfrl" := hf_rl_trans]> transform in
  let transform := <["I" := new_vtkTransform]> transform in
  let transform := <["Z" := z_trans]> transform in
  {| si_mat := init_si_mat; is_mat := init_is_mat; lr_mat := init_lr_mat;
     rl_mat := init_rl_mat; hf_mat := init_hf_mat; transform := transform |}.

Definition dquote : string := String "034"%char EmptyString.

(** [SliceOrder.get] *)
Definition get (self : SliceOrder) (order : string) : result vtkTransform :=
  match transform self !! order with
  | Some t => Ok t
  | None =>
      Raise (Exception ("No such transform " +:+ dquote +:+ order +:+ dquote
                        +:+ " exists."))
  end.

End Transforms.

(** ** Volumes, readers and the image pipeline objects (VTK) *)

Module Imaging.
Import Vtk.
Local Open Scope R_scope.

Record vtkImageData : Type := mkImageData {
  GetSpacing : R * R * R;
  GetOrigin : R * R * R;
  GetDimensions : Z * Z * Z;
  GetScalarRange : R * R
}.

(** What VTK hands out before any data has been produced: no voxels,
    unit spacing, zero origin, scalar range [(0, 1)]. *)
Definition empty_vtkImageData : vtkImageData :=
  {| GetSpacing := (1, 1, 1); GetOrigin := (0, 0, 0);
     GetDimensions := (0%Z, 0%Z, 0%Z); GetScalarRange := (0, 1) |}.

(** A reader either has produced a volume or has not (missing or
    unreadable file).  [Update()] reports problems through VTK's own error
    log and never raises a Python exception. *)
Record vtkNrrdReader : Type := mkReader { produced : option vtkImageData }.

Definition GetOutput (reader : vtkNrrdReader) : vtkImageData :=
  default empty_vtkImageData (produced reader).


(** [GetTableValue] of the colour table. *)
Definition vtkLookupTable : Type := Z -> R * R * R * R.

Inductive interpolation : Type := EngineDefault | NearestNeighbor.

Record vtkImageReslice : Type := mkReslice {
  InputConnection : vtkNrrdReader;
  OutputDimensionality : Z;
  InterpolationMode : interpolation;
  ResliceAxesDirectionCosines : list Z;
  ResliceAxesOrigin : point3;
  Updated : bool
}.

Definition new_vtkImageReslice (input : vtkNrrdReader) : vtkImageReslice :=
  {| InputConnection := input; OutputDimensionality := 3;
     InterpolationMode := EngineDefault;
     ResliceAxesDirectionCosines := [1; 0; 0; 0; 1; 0; 0; 0; 1]%Z;
     ResliceAxesOrigin := (0, 0, 0); Updated := false |}.

Definition SetOutputDimensionality (n : Z) (r : vtkImageReslice) :=
  {| InputConnection := InputConnection r; OutputDimensionality := n;
     InterpolationMode := InterpolationMode r;
     ResliceAxesDirectionCosines := ResliceAxesDirectionCosines r;
     ResliceAxesOrigin := ResliceAxesOrigin r; Updated := Updated r |}.

Definition SetInterpolationModeToNearestNeighbor (r : vtkImageReslice) :=
  {| InputConnection := InputConnection r;
     OutputDimensionality := OutputDimensionality r;
     InterpolationMode := NearestNeighbor;
     ResliceAxesDirectionCosines := ResliceAxesDirectionCosines r;
     ResliceAxesOrigin := ResliceAxesOrigin r; Updated := Updated r |}.

Definition SetResliceAxesDirectionCosines (c : list Z) (r : vtkImageReslice) :=
  {| InputConnection := InputConnection r;
     OutputDimensionality := OutputDimensionality r;
     InterpolationMode := InterpolationMode r;
     ResliceAxesDirectionCosines := c;
     ResliceAxesOrigin := ResliceAxesOrigin r; Updated := Updated r |}.

Definition SetResliceAxesOrigin (x y z : R) (r : vtkImageReslice) :=
  {| InputConnection := InputConnection r;
     OutputDimensionality := OutputDimensionality r;
     InterpolationMode := InterpolationMode r;
     ResliceAxesDirectionCosines := ResliceAxesDirectionCosines r;
     ResliceAxesOrigin := (x, y, z); Updated := Updated r |}.

Definition UpdateReslice (r : vtkImageReslice) :=
  {| InputConnection := InputConnection r;
     OutputDimensionality := OutputDimensionality r;
     InterpolationMode := InterpolationMode r;
     ResliceAxesDirectionCosines := ResliceAxesDirectionCosines r;
     ResliceAxesOrigin := ResliceAxesOrigin r; Updated := true |}.


Record vtkImageMapToColors : Type := mkMapToColors {
  ColorsInput : vtkImageReslice;
  LookupTable : vtkLookupTable;
  OutputFormatRGBA : bool;
  PassAlphaToOutput : bool
}.

Inductive image_source : Type :=
| FromReslice (r : vtkImageReslice)
| FromColors (m : vtkImageMapToColors).

Record vtkImageActor : Type := mkImageActor {
  MapperInput : option image_source;
  UserTransform : option vtkTransform;
  ImageOpacity : R;
  Interpolate : bool;
  ImageVisibility : bool
}.

Definition new_vtkImageActor : vtkImageActor :=
  {| MapperInput := None; UserTransform := None; ImageOpacity := 1;
     Interpolate := true; ImageVisibility := true |}.

Definition SetMapperInput (src : image_source) (a : vtkImageActor) :=
  {| MapperInput := Some src; UserTransform := UserTransform a;
     ImageOpacity := ImageOpacity a; Interpolate := Interpolate a;
     ImageVisibility := ImageVisibility a |}.

Definition SetUserTransform (t : vtkTransform) (a : vtkImageActor) :=
  {| MapperInput := MapperInput a; UserTransform := Some t;
     ImageOpacity := ImageOpacity a; Interpolate := Interpolate a;
     ImageVisibility := ImageVisibility a |}.

Definition SetImageOpacity (o : R) (a : vtkImageActor) :=
  {| MapperInput := MapperInput a; UserTransform := UserTransform a;
     ImageOpacity := o; Interpolate := Interpolate a;
     ImageVisibility := ImageVisibility a |}.

Definition InterpolateOff (a : vtkImageActor) :=
  {| MapperInput := MapperInput a; UserTransform := UserTransform a;
     ImageOpacity := ImageOpacity a; Interpolate := false;
     ImageVisibility := ImageVisibility a |}.

Definition SetImageVisibility (v : bool) (a : vtkImageActor) :=
  {| MapperInput := MapperInput a; UserTransform := UserTransform a;
     ImageOpacity := ImageOpacity a; Interpolate := Interpolate a;
     ImageVisibility := v |}.

End Imaging.

(** ** slice_utils.py *)

Module SliceUtils.
Import Vtk Imaging.
Local Open Scope R_scope.

(** Step 8: colour mapping of the label raster and its actor. *)
Definition make_label_actor (reslice_labels : vtkImageReslice)
    (lut : vtkLookupTable) (transform : vtkTransform) : vtkImageActor :=
  let map_to_colors :=
    {| ColorsInput := reslice_labels; LookupTable := lut;
       OutputFormatRGBA := true; PassAlphaToOutput := true |} in
  let actor_labels := new_vtkImageActor in
  let actor_labels := SetMapperInput (FromColors map_to_colors) actor_labels in
  let actor_labels := SetUserTransform transform actor_labels in
  let actor_labels := SetImageOpacity 1 actor_labels in
  InterpolateOff actor_labels.

Record slice_plane : Type := mkSlicePlane {
  actor_gray : vtkImageActor;
  actor_labels : option vtkImageActor;
  reslice : vtkImageReslice;
  reslice_labels : option vtkImageReslice;
  plane_orientation : string;
  plane_transform : vtkTransform
}.

(** [create_slice_plane].  The transform object is shared by the two actors
    and the returned tuple; here each holds its value. *)
Definition create_slice_plane (reader : vtkNrrdReader)
    (label_reader : option vtkNrrdReader) (orientation : string)
    (slice_num : Z) (lut : vtkLookupTable) : result slice_plane :=
  let image_data := GetOutput reader in
  let spacing := GetSpacing image_data in
  let dims := GetDimensions image_data in
  let reslice := new_vtkImageReslice reader in
  let reslice := SetOutputDimensionality 2 reslice in
  let reslice_labels :=
    match label_reader with
    | Some label_reader =>
        let reslice_labels := new_vtkImageReslice label_reader in
        let reslice_labels := SetOutputDimensionality 2 reslice_labels in
        Some (SetInterpolationModeToNearestNeighbor reslice_labels)
    | None => None
    end in
  let transform := new_vtkTransform in
  let transform := Scale 1 (-1) (-1) transform in
  let '(spacing0, spacing1, spacing2) := spacing in
  let '(dims0, dims1, dims2) := dims in
  let '(reslice, reslice_labels, transform) :=
    if String.eqb orientation "XY" then
      let direction_cosines := [1; 0; 0; 0; 1; 0; 0; 0; 1]%Z in
      let reslice := SetResliceAxesDirectionCosines direction_cosines reslice in
      let reslice_labels :=
        SetResliceAxesDirectionCosines direction_cosines <$> reslice_labels in
      let actual_slice := (slice_num + dims2 `div` 2)%Z in
      let z_pos := IZR actual_slice * spacing2 in
      let reslice := SetResliceAxesOrigin 0 0 z_pos reslice in
      let reslice_labels := SetResliceAxesOrigin 0 0 z_pos <$> reslice_labels in
      let transform := Translate 0 0 (- z_pos) transform in
      (reslice, reslice_labels, transform)
    else if String.eqb orientation "XZ" then
      let direction_cosines := [-1; 0; 0; 0; 0; 1; 0; 1; 0]%Z in
      let reslice := SetResliceAxesDirectionCosines direction_cosines reslice in
      let reslice_labels :=
        SetResliceAxesDirectionCosines direction_cosines <$> reslice_labels in
      let actual_slice := (- slice_num + dims1 `div` 2)%Z in
      let y_pos := IZR actual_slice * spacing1 in
      let reslice := SetResliceAxesOrigin 0 y_pos 0 reslice in
      let reslice_labels := SetResliceAxesOrigin 0 y_pos 0 <$> reslice_labels in
      let transform := RotateX 90 transform in
      let transform := RotateZ 180 transform in
      let transform := Translate 0 0 (- y_pos) transform in
      (reslice, reslice_labels, transform)
    else if String.eqb orientation "YZ" then
      let direction_cosines := [0; 1; 0; 0; 0; 1; 1; 0; 0]%Z in
      let reslice := SetResliceAxesDirectionCosines direction_cosines reslice in
      let reslice_labels :=
        SetResliceAxesDirectionCosines direction_cosines <$> reslice_labels in
      let actual_slice := (slice_num + dims0 `div` 2)%Z in
      let x_pos := IZR actual_slice * spacing0 in
      let reslice := SetResliceAxesOrigin x_pos 0 0 reslice in
      let reslice_labels := SetResliceAxesOrigin x_pos 0 0 <$> reslice_labels in
      let transform := RotateY (-90) transform in
      let transform := RotateZ 90 transform in
      let transform := Translate 0 0 (- x_pos) transform in
      (reslice, reslice_labels, transform)
    else (reslice, reslice_labels, transform) in
  let reslice := UpdateReslice reslice in
  let reslice_labels := UpdateReslice <$> reslice_labels in
  let actor_gray := new_vtkImageActor in
  let actor_gray := SetMapperInput (FromReslice reslice) actor_gray in
  let actor_gray := SetUserTransform transform actor_gray in
  let actor_gray := SetImageOpacity (7 / 10) actor_gray in
  let actor_labels :=
    match reslice_labels with
    | Some reslice_labels => Some (make_label_actor reslice_labels lut transform)
    | None => None
    end in
  Ok {| actor_gray := actor_gray; actor_labels := actor_labels;
        reslice := reslice; reslice_labels := reslice_labels;
        plane_orientation := orientation; plane_transform := transform |}.

End SliceUtils.

(** ** segmentation_utils.py *)

Module Segmentation.
Import Vtk Imaging Geometry.
Local Open Scope R_scope.

Inductive representation : Type := Surface | Wireframe.

(** A [vtkActor] with its property object and the two ad hoc attributes the
    pipeline attaches ([hasattr(actor, "_is_segmentation_3d")] and
    [_label_value]). *)
Record vtkActor : Type := mkActor {
  ActorInput : option vtkPolyData;
  Visibility : bool;
  Representation : representation;
  Color : R * R * R;
  Opacity : R;
  Ambient : R;
  Specular : R;
  SpecularPower : R;
  is_segmentation_3d : bool;
  label_value : option Z
}.

Record vtkRenderer : Type := mkRenderer {
  GetActors : list vtkActor;
  clipping_range_resets : nat
}.

(** The surface filters are VTK's; the pipeline only chooses their
    parameters.  [contour reader value] is the iso-surface of the reader's
    volume at [value]. *)
Class SurfaceFilters : Type := {
  contour : vtkNrrdReader -> Z -> vtkPolyData;
  smooth : forall (iterations : Z) (relaxation : R)
                  (feature_edge_smoothing boundary_smoothing : bool),
           vtkPolyData -> vtkPolyData;
  normals : forall (feature_angle : R) (splitting : bool),
            vtkPolyData -> vtkPolyData;
  transform_polydata : vtkTransform -> vtkPolyData -> vtkPolyData
}.

Section Pipeline.
Context {filters : SurfaceFilters}.

(** The state the main loop threads: the scene, the two result lists, and
    the labels handed to the contour filter so far. *)
Record loop_state : Type := mkLoopState {
  st_renderer : vtkRenderer;
  segmentation_actors : list vtkActor;
  processed_signatures : list (Z * signature);
  contoured_labels : list Z
}.

(** The inner [for prev_label, prev_sig in processed_signatures] loop with
    its [break]. *)
Fixpoint is_duplicate (current_signature : signature)
    (processed_signatures : list (Z * signature)) (similarity_threshold : R)
  : result bool :=
  match processed_signatures with
  | [] => Ok false
  | (prev_label, prev_sig) :: rest =>
      let* similar :=
        are_polydata_similar current_signature prev_sig similarity_threshold in
      if similar then Ok true
      else is_duplicate current_signature rest similarity_threshold
  end.

Definition smoothed_surface (label_reader : vtkNrrdReader) (label : Z)
  : vtkPolyData :=
  smooth 20 (1 / 10) false true (contour label_reader label).

(** Steps 4d to 4g: normals, coordinate correction, mapper, actor. *)
Definition make_actor (smoothed : vtkPolyData) (lut : vtkLookupTable)
    (label : Z) : vtkActor :=
  let normals_out := normals 60 false smoothed in
  let transform := Scale 1 (-1) 1 new_vtkTransform in
  let tf_out := transform_polydata transform normals_out in
  let '(r, g, b, _) := lut label in
  {| ActorInput := Some tf_out; Visibility := true; Representation := Surface;
     Color := (r, g, b); Opacity := 9 / 10; Ambient := 1 / 2;
     Specular := 1 / 2; SpecularPower := 50;
     is_segmentation_3d := true; label_value := Some label |}.

Definition AddActor (actor : vtkActor) (r : vtkRenderer) : vtkRenderer :=
  {| GetActors := GetActors r ++ [actor];
     clipping_range_resets := clipping_range_resets r |}.

Definition ResetCameraClippingRange (r : vtkRenderer) : vtkRenderer :=
  {| GetActors := GetActors r;
     clipping_range_resets := S (clipping_range_resets r) |}.

(** One iteration of the main loop. *)
Definition process_label (label_reader : vtkNrrdReader) (lut : vtkLookupTable)
    (similarity_threshold : R) (label : Z) (st : loop_state)
  : result loop_state :=
  let contour_out := contour label_reader label in
  let st := {| st_renderer := st_renderer st;
               segmentation_actors := segmentation_actors st;
               processed_signatures := processed_signatures st;
               contoured_labels := contoured_labels st ++ [label] |} in
  if (GetNumberOfPoints contour_out =? 0)%nat then Ok st
  else
    let smoothed := smooth 20 (1 / 10) false true contour_out in
    let current_signature := calculate_polydata_signature smoothed in
    let* is_duplicate :=
      is_duplicate current_signature (processed_signatures st)
                   similarity_threshold in
    if is_duplicate then Ok st
    else
      let actor := make_actor smoothed lut label in
      Ok {| st_renderer := AddActor actor (st_renderer st);
            segmentation_actors := segmentation_actors st ++ [actor];
            processed_signatures :=
              processed_signatures st ++ [(label, current_signature)];
            contoured_labels := contoured_labels st |}.

Fixpoint process_labels (label_reader : vtkNrrdReader) (lut : vtkLookupTable)
    (similarity_threshold : R) (labels : list Z) (st : loop_state)
  : result loop_state :=
  match labels with
  | [] => Ok st
  | label :: rest =>
      let* st := process_label label_reader lut similarity_threshold label st in
      process_labels label_reader lut similarity_threshold rest st
  end.

(** Steps 1 to 4 of [create_segmentation_3d_model]: clear the previous
    surfaces, read the scalar range, run the loop. *)
Definition reconstruct (label_reader : vtkNrrdReader) (lut : vtkLookupTable)
    (renderer : vtkRenderer) (similarity_threshold : R) : result loop_state :=
  let renderer :=
    {| GetActors := filter (fun actor => is_segmentation_3d actor = false)
                           (GetActors renderer);
       clipping_range_resets := clipping_range_resets renderer |} in
  let image_data := GetOutput label_reader in
  let '(scalar_min, scalar_max) := GetScalarRange image_data in
  let st := {| st_renderer := renderer; segmentation_actors := [];
               processed_signatures := []; contoured_labels := [] |} in
  process_labels label_reader lut similarity_threshold
                 (py_range 1 (py_int scalar_max + 1)) st.

(** [create_segmentation_3d_model]; the renderer it mutates is returned next
    to the list of actors.  [mesh_actors_list] is accepted and not used. *)
Definition create_segmentation_3d_model (label_reader : vtkNrrdReader)
    (lut : vtkLookupTable) (renderer : vtkRenderer)
    (mesh_actors_list : gmap string vtkActor) (similarity_threshold : R)
  : result (vtkRenderer * list vtkActor) :=
  let* st := reconstruct label_reader lut renderer similarity_threshold in
  Ok (ResetCameraClippingRange (st_renderer st),
      segmentation_actors st).

End Pipeline.
End Segmentation.

(** ** callbacks.py *)

Module Callbacks.
Import Vtk Imaging Geometry Segmentation.
Local Open Scope R_scope.

(** *** SlicePlaneCallback *)

Record SlicePlaneCallback : Type := mkSlicePlaneCallback {
  sp_reader : vtkNrrdReader;
  sp_label_reader : option vtkNrrdReader;
  image_actor_gray : vtkImageActor;
  image_actor_labels : option vtkImageActor;
  sp_orientation : string;
  sp_transform : vtkTransform;
  sp_lut : vtkLookupTable;
  sp_spacing : R * R * R;
  sp_origin : R * R * R;
  sp_dims : Z * Z * Z
}.

Definition SlicePlaneCallback_init (reader : vtkNrrdReader)
    (label_reader : option vtkNrrdReader) (image_actor_gray : vtkImageActor)
    (image_actor_labels : option vtkImageActor) (orientation : string)
    (transform : vtkTransform) (lut : vtkLookupTable) : SlicePlaneCallback :=
  let image_data := GetOutput reader in
  {| sp_reader := reader; sp_label_reader := label_reader;
     image_actor_gray := image_actor_gray;
     image_actor_labels := image_actor_labels;
     sp_orientation := orientation; sp_transform := transform; sp_lut := lut;
     sp_spacing := GetSpacing image_data; sp_origin := GetOrigin image_data;
     sp_dims := GetDimensions image_data |}.

(** [SlicePlaneCallback.__call__]; [slider_value] is what
    [caller.GetRepresentation().GetValue()] returns.  The actors refer to
    the transform object the callback mutates, so the placement in force
    after the call is [sp_transform] of the returned state. *)
Definition SlicePlaneCallback_call (self : SlicePlaneCallback)
    (slider_value : R) : result SlicePlaneCallback :=
  let value := py_int slider_value in
  let reslice := new_vtkImageReslice (sp_reader self) in
  let reslice := SetOutputDimensionality 2 reslice in
  let reslice_labels :=
    match sp_label_reader self with
    | Some label_reader =>
        let reslice_labels := new_vtkImageReslice label_reader in
        let reslice_labels := SetOutputDimensionality 2 reslice_labels in
        Some (SetInterpolationModeToNearestNeighbor reslice_labels)
    | None => None
    end in
  let transform := Identity (sp_transform self) in
  let transform := Scale 1 (-1) (-1) transform in
  let '(spacing0, spacing1, spacing2) := sp_spacing self in
  let '(dims0, dims1, dims2) := sp_dims self in
  let '(reslice, reslice_labels, transform) :=
    if String.eqb (sp_orientation self) "XY" then
      let direction_cosines := [1; 0; 0; 0; 1; 0; 0; 0; 1]%Z in
      let reslice := SetResliceAxesDirectionCosines direction_cosines reslice in
      let reslice_labels :=
        SetResliceAxesDirectionCosines direction_cosines <$> reslice_labels in
      let actual_slice := (value + dims2 `div` 2)%Z in
      let z_pos := IZR actual_slice * spacing2 in
      let reslice := SetResliceAxesOrigin 0 0 z_pos reslice in
      let reslice_labels := SetResliceAxesOrigin 0 0 z_pos <$> reslice_labels in
      (reslice, reslice_labels, Translate 0 0 (- z_pos) transform)
    else if String.eqb (sp_orientation self) "XZ" then
      let direction_cosines := [-1; 0; 0; 0; 0; 1; 0; 1; 0]%Z in
      let reslice := SetResliceAxesDirectionCosines direction_cosines reslice in
      let reslice_labels :=
        SetResliceAxesDirectionCosines direction_cosines <$> reslice_labels in
      let actual_slice := (- value + dims1 `div` 2)%Z in
      let y_pos := IZR actual_slice * spacing1 in
      let reslice := SetResliceAxesOrigin 0 y_pos 0 reslice in
      let reslice_labels := SetResliceAxesOrigin 0 y_pos 0 <$> reslice_labels in
      let transform := RotateX 90 transform in
      let transform := RotateZ 180 transform in
      (reslice, reslice_labels, Translate 0 0 (- y_pos) transform)
    else if String.eqb (sp_orientation self) "YZ" then
      let direction_cosines := [0; 1; 0; 0; 0; 1; 1; 0; 0]%Z in
      let reslice := SetResliceAxesDirectionCosines direction_cosines reslice in
      let reslice_labels :=
        SetResliceAxesDirectionCosines direction_cosines <$> reslice_labels in
      let actual_slice := (value + dims0 `div` 2)%Z in
      let x_pos := IZR actual_slice * spacing0 in
      let reslice := SetResliceAxesOrigin x_pos 0 0 reslice in
      let reslice_labels := SetResliceAxesOrigin x_pos 0 0 <$> reslice_labels in
      let transform := RotateY (-90) transform in
      let transform := RotateZ 90 transform in
      (reslice, reslice_labels, Translate 0 0 (- x_pos) transform)
    else (reslice, reslice_labels, transform) in
  let reslice := UpdateReslice reslice in
  let reslice_labels := UpdateReslice <$> reslice_labels in
  let gray := SetMapperInput (FromReslice reslice) (image_actor_gray self) in
  let labels :=
    match image_actor_labels self, reslice_labels with
    | Some actor, Some reslice_labels =>
        let map_to_colors :=
          {| ColorsInput := reslice_labels; LookupTable := sp_lut self;
             OutputFormatRGBA := true; PassAlphaToOutput := true |} in
        Some (InterpolateOff (SetMapperInput (FromColors map_to_colors) actor))
    | other, _ => other
    end in
  Ok {| sp_reader := sp_reader self; sp_label_reader := sp_label_reader self;
        image_actor_gray := gray; image_actor_labels := labels;
        sp_orientation := sp_orientation self; sp_transform := transform;
        sp_lut := sp_lut self; sp_spacing := sp_spacing self;
        sp_origin := sp_origin self; sp_dims := sp_dims self |}.

(** The reslice filter now feeding the grayscale actor. *)
Definition current_reslice (self : SlicePlaneCallback) : option vtkImageReslice :=
  match MapperInput (image_actor_gray self) with
  | Some (FromReslice r) => Some r
  | _ => None
  end.

(** *** SliderToggleCallback *)

Record vtkSliderWidget : Type := mkSlider {
  Enabled : bool;
  SliderValue : R;
  title : string;
  p1 : R * R;
  p2 : R * R;
  title_color : R * R * R
}.

Definition SetEnabled (e : bool) (w : vtkSliderWidget) : vtkSliderWidget :=
  {| Enabled := e; SliderValue := SliderValue w; title := title w;
     p1 := p1 w; p2 := p2 w; title_color := title_color w |}.

(** Layout constants of [config.py]. *)
Definition top_y : R := 80 / 100.
Definition step_y : R := 45 / 1000.
Definition right_x0_col1 : R := 82 / 100.
Definition right_x1_col1 : R := 97 / 100.
Definition right_x0_col2 : R := 62 / 100.
Definition right_x1_col2 : R := 77 / 100.

Definition SetVisibility (v : bool) (a : vtkActor) : vtkActor :=
  {| ActorInput := ActorInput a; Visibility := v;
     Representation := Representation a; Color := Color a;
     Opacity := Opacity a; Ambient := Ambient a; Specular := Specular a;
     SpecularPower := SpecularPower a;
     is_segmentation_3d := is_segmentation_3d a;
     label_value := label_value a |}.

Definition SetRepresentation (r : representation) (a : vtkActor) : vtkActor :=
  {| ActorInput := ActorInput a; Visibility := Visibility a;
     Representation := r; Color := Color a;
     Opacity := Opacity a; Ambient := Ambient a; Specular := Specular a;
     SpecularPower := SpecularPower a;
     is_segmentation_3d := is_segmentation_3d a;
     label_value := label_value a |}.

Definition SetOpacity (o : R) (a : vtkActor) : vtkActor :=
  {| ActorInput := ActorInput a; Visibility := Visibility a;
     Representation := Representation a; Color := Color a;
     Opacity := o; Ambient := Ambient a; Specular := Specular a;
     SpecularPower := SpecularPower a;
     is_segmentation_3d := is_segmentation_3d a;
     label_value := label_value a |}.

#[local] Instance R_eq_dec : EqDecision R := Req_dec_T.
#[local] Instance Bounds_eq_dec : EqDecision Bounds.
Proof. solve_decision. Defined.
#[local] Instance vtkPolyData_eq_dec : EqDecision vtkPolyData.
Proof. solve_decision. Defined.
#[local] Instance representation_eq_dec : EqDecision representation.
Proof. solve_decision. Defined.
#[local] Instance vtkActor_eq_dec : EqDecision vtkActor.
Proof. solve_decision. Defined.

(** [renderer.RemoveActor(actor)]: the first occurrence leaves the scene.
    Actors are compared by value here, by identity in VTK. *)
Fixpoint remove_first (actor : vtkActor) (l : list vtkActor) : list vtkActor :=
  match l with
  | [] => []
  | a :: rest => if decide (a = actor) then rest else a :: remove_first actor rest
  end.

Definition RemoveActor (actor : vtkActor) (r : vtkRenderer) : vtkRenderer :=
  {| GetActors := remove_first actor (GetActors r);
     clipping_range_resets := clipping_range_resets r |}.

Record SliderToggleCallback : Type := mkSliderToggleCallback {
  sliders : gmap string vtkSliderWidget;
  label_actors : gmap string (option vtkImageActor);
  mesh_actors_dict : gmap string vtkActor;
  tg_label_reader : option vtkNrrdReader;
  tg_renderer : option vtkRenderer;
  tg_lut : option vtkLookupTable;
  iren : bool;
  mode_state : Z;
  tg_segmentation_actors : list vtkActor;
  segmentation_sliders : gmap Z vtkSliderWidget
}.

(** [str.lower()] on ASCII key names. *)
Definition ascii_lower (c : ascii) : ascii :=
  let n := nat_of_ascii c in
  if (65 <=? n)%nat && (n <=? 90)%nat then ascii_of_nat (n + 32) else c.

Fixpoint lower (s : string) : string :=
  match s with
  | EmptyString => EmptyString
  | String c rest => String (ascii_lower c) (lower rest)
  end.

Section Toggle.
Context {filters : SurfaceFilters}.

(** The body of the [for idx, actor in enumerate(...)] loop of
    [create_segmentation_sliders], from index [idx] on. *)
Fixpoint add_segmentation_sliders (idx : Z) (actors : list vtkActor)
    (acc : gmap Z vtkSliderWidget) : result (gmap Z vtkSliderWidget) :=
  match actors with
  | [] => Ok acc
  | actor :: rest =>
      match label_value actor with
      | None => Raise AttributeError
      | Some label_value =>
          let col := (idx `mod` 2)%Z in
          let row := (idx `div` 2)%Z in
          let y := top_y - IZR row * step_y in
          let '(x0, x1) :=
            if (col =? 0)%Z then (right_x0_col1, right_x1_col1)
            else (right_x0_col2, right_x1_col2) in
          let slider_widget :=
            {| Enabled := true; SliderValue := 9 / 10;
               title := "Seg " +:+ pretty label_value;
               p1 := (x0, y); p2 := (x1, y); title_color := Color actor |} in
          add_segmentation_sliders (idx + 1) rest
                                   (<[label_value := slider_widget]> acc)
      end
  end.

Definition create_segmentation_sliders (self : SliderToggleCallback)
  : result (gmap Z vtkSliderWidget) :=
  match tg_segmentation_actors self with
  | [] => Ok (segmentation_sliders self)
  | actors =>
      if iren self
      then add_segmentation_sliders 0 actors (segmentation_sliders self)
      else Ok (segmentation_sliders self)
  end.

(** [remove_segmentation_sliders]: every slider is switched off, then the
    dictionary is cleared. *)
Definition remove_segmentation_sliders (self : SliderToggleCallback)
  : gmap Z vtkSliderWidget := ∅.

(** [for actor in self.segmentation_actors: self.renderer.RemoveActor(actor)] *)
Definition remove_segmentation_actors (actors : list vtkActor)
    (renderer : option vtkRenderer) : result (option vtkRenderer) :=
  match actors, renderer with
  | [], _ => Ok renderer
  | _ :: _, None => Raise AttributeError
  | _ :: _, Some r => Ok (Some (foldl (fun r a => RemoveActor a r) r actors))
  end.

Definition show_label_actors (m : gmap string (option vtkImageActor))
  : gmap string (option vtkImageActor) :=
  (fun actor : option vtkImageActor => SetImageVisibility true <$> actor) <$> m.

(** [SliderToggleCallback.__call__]; [keysym] is [caller.GetKeySym()]. *)
Definition SliderToggleCallback_call (self : SliderToggleCallback)
    (keysym : string) : result SliderToggleCallback :=
  let key := lower keysym in
  if String.eqb key "n" then
    Ok {| sliders := (fun v => SetEnabled (negb (Enabled v)) v) <$> sliders self;
          label_actors := label_actors self;
          mesh_actors_dict := mesh_actors_dict self;
          tg_label_reader := tg_label_reader self;
          tg_renderer := tg_renderer self; tg_lut := tg_lut self;
          iren := iren self; mode_state := mode_state self;
          tg_segmentation_actors := tg_segmentation_actors self;
          segmentation_sliders := segmentation_sliders self |}
  else if String.eqb key "l" && negb (bool_decide (label_actors self = ∅)) then
    Ok {| sliders := sliders self;
          label_actors :=
            (fun actor : option vtkImageActor =>
               (fun a => SetImageVisibility (negb (ImageVisibility a)) a)
               <$> actor)
            <$> label_actors self;
          mesh_actors_dict := mesh_actors_dict self;
          tg_label_reader := tg_label_reader self;
          tg_renderer := tg_renderer self; tg_lut := tg_lut self;
          iren := iren self; mode_state := mode_state self;
          tg_segmentation_actors := tg_segmentation_actors self;
          segmentation_sliders := segmentation_sliders self |}
  else if String.eqb key "m" then
    let mode_state := ((mode_state self + 1) `mod` 4)%Z in
    if (mode_state =? 3)%Z then
      let sliders :=
        map_imap (fun name slider =>
                    Some (if bool_decide (name ∈ ["X Slice"; "Y Slice"; "Z Slice"])
                          then slider else SetEnabled false slider))
                 (sliders self) in
      let mesh_actors_dict := SetVisibility false <$> mesh_actors_dict self in
      match tg_label_reader self, tg_renderer self, tg_lut self with
      | Some label_reader, Some renderer, Some lut =>
          let* '(renderer, segmentation_actors) :=
            create_segmentation_3d_model label_reader lut renderer
                                         mesh_actors_dict 0 in
          let updated :=
            {| sliders := sliders; label_actors := label_actors self;
               mesh_actors_dict := mesh_actors_dict;
               tg_label_reader := tg_label_reader self;
               tg_renderer := Some renderer; tg_lut := tg_lut self;
               iren := iren self; mode_state := mode_state;
               tg_segmentation_actors := segmentation_actors;
               segmentation_sliders := segmentation_sliders self |} in
          let* segmentation_sliders := create_segmentation_sliders updated in
          Ok {| sliders := sliders; label_actors := label_actors self;
                mesh_actors_dict := mesh_actors_dict;
                tg_label_reader := tg_label_reader self;
                tg_renderer := Some renderer; tg_lut := tg_lut self;
                iren := iren self; mode_state := mode_state;
                tg_segmentation_actors := segmentation_actors;
                segmentation_sliders := segmentation_sliders |}
      | _, _, _ =>
          Ok {| sliders := sliders; label_actors := label_actors self;
                mesh_actors_dict := mesh_actors_dict;
                tg_label_reader := tg_label_reader self;
                tg_renderer := tg_renderer self; tg_lut := tg_lut self;
                iren := iren self; mode_state := mode_state;
                tg_segmentation_actors := tg_segmentation_actors self;
                segmentation_sliders := segmentation_sliders self |}
      end
    else
      let segmentation_sliders := remove_segmentation_sliders self in
      let sliders := SetEnabled true <$> sliders self in
      let* renderer :=
        remove_segmentation_actors (tg_segmentation_actors self)
                                   (tg_renderer self) in
      let mesh_actors_dict :=
        if (mode_state =? 0)%Z then
          map_imap (fun name actor =>
                      let actor := SetVisibility true actor in
                      let actor := SetRepresentation Surface actor in
                      Some (match sliders !! name with
                            | Some slider => SetOpacity (SliderValue slider) actor
                            | None => SetOpacity 1 actor
                            end))
                   (mesh_actors_dict self)
        else
          (fun actor =>
             let actor := SetVisibility true actor in
             if (mode_state =? 1)%Z then
               SetOpacity 1 (SetRepresentation Wireframe actor)
             else if (mode_state =? 2)%Z then
               SetOpacity (1 / 100) (SetRepresentation Surface actor)
             else actor)
          <$> mesh_actors_dict self in
      Ok {| sliders := sliders;
            label_actors := show_label_actors (label_actors self);
            mesh_actors_dict := mesh_actors_dict;
            tg_label_reader := tg_label_reader self;
            tg_renderer := renderer; tg_lut := tg_lut self;
            iren := iren self; mode_state := mode_state;
            tg_segmentation_actors := [];
            segmentation_sliders := segmentation_sliders |}
  else Ok self.

End Toggle.
End Callbacks.

(** ** The specification's own formulas

    Definitions that follow the words of the specification, to be compared
    with the functions translated from the code. *)

Module Spec.
Import Vtk Imaging Geometry Segmentation.
Local Open Scope R_scope.

(** "nonzero point count, nonzero cell count, nonzero volume". *)
Definition nonempty (s : signature) : bool :=
  negb (num_points s =? 0)%Z && negb (num_cells s =? 0)%Z
  && negb (Reqb (volume s) 0).

Definition nonzero_metrics (s : signature) : Prop :=
  num_points s <> 0%Z /\ num_cells s <> 0%Z /\ volume s <> 0.

Definition zero_metric (s : signature) : Prop :=
  num_points s = 0%Z \/ num_cells s = 0%Z \/ volume s = 0.

(** The volume entry is the volume of the box the bounds describe. *)
Definition box_signature (s : signature) : Prop :=
  volume s = box_volume (bounds s).

Definition ratio_of_counts (a b : Z) : R := IZR (Z.min a b) / IZR (Z.max a b).
Definition ratio_of_volumes (a b : R) : R := Rmin a b / Rmax a b.

Definition box_center (b : Bounds) : R * R * R :=
  ((b0 b + b1 b) / 2, (b2 b + b3 b) / 2, (b4 b + b5 b) / 2).

Definition euclidean_distance (p q : R * R * R) : R :=
  let '(px, py, pz) := p in
  let '(qx, qy, qz) := q in
  sqrt ((px - qx) ^ 2 + (py - qy) ^ 2 + (pz - qz) ^ 2).

(** Mean of the six absolute box extents. *)
Definition mean_extent (a b : Bounds) : R :=
  (Rabs (b1 a - b0 a) + Rabs (b3 a - b2 a) + Rabs (b5 a - b4 a) +
   Rabs (b1 b - b0 b) + Rabs (b3 b - b2 b) + Rabs (b5 b - b4 b)) / 6.

(** [max(0, 1 - dist/avg_size)]; meaningful when the mean extent is not 0. *)
Definition spec_center_similarity (a b : Bounds) : R :=
  Rmax 0 (1 - euclidean_distance (box_center a) (box_center b) / mean_extent a b).

(** The Slice Transform Engine table. *)
Inductive plane : Type := Axial | Coronal | Sagittal.

Definition plane_code (p : plane) : string :=
  match p with Axial => "XY" | Coronal => "XZ" | Sagittal => "YZ" end.

Definition absolute_index (p : plane) (s : Z) (dims : Z * Z * Z) : Z :=
  let '(dim_x, dim_y, dim_z) := dims in
  match p with
  | Axial => s + dim_z `div` 2
  | Coronal => - s + dim_y `div` 2
  | Sagittal => s + dim_x `div` 2
  end%Z.

Definition spacing_component (p : plane) (spacing : R * R * R) : R :=
  let '(sx, sy, sz) := spacing in
  match p with Axial => sz | Coronal => sy | Sagittal => sx end.

Definition physical_coordinate (p : plane) (s : Z) (dims : Z * Z * Z)
    (spacing : R * R * R) : R :=
  IZR (absolute_index p s dims) * spacing_component p spacing.

Definition reslice_origin (p : plane) (c : R) : point3 :=
  match p with
  | Axial => (0, 0, c)
  | Coronal => (0, c, 0)
  | Sagittal => (c, 0, 0)
  end.

Definition axis_directions (p : plane) : list Z :=
  match p with
  | Axial => [1; 0; 0; 0; 1; 0; 0; 0; 1]
  | Coronal => [-1; 0; 0; 0; 0; 1; 0; 1; 0]
  | Sagittal => [0; 1; 0; 0; 0; 1; 1; 0; 0]
  end%Z.

Definition plane_rotations (p : plane) (t : vtkTransform) : vtkTransform :=
  match p with
  | Axial => t
  | Coronal => RotateZ 180 (RotateX 90 t)
  | Sagittal => RotateZ 90 (RotateY (-90) t)
  end.

(** identity, scale(1,-1,-1), rotations, translate(0,0,-c) *)
Definition placement (p : plane) (c : R) : vtkTransform :=
  Translate 0 0 (- c)
    (plane_rotations p (Scale 1 (-1) (-1) new_vtkTransform)).

(** The signature the reconstruction loop computes for a label. *)
Definition signature_of {filters : SurfaceFilters}
    (label_reader : vtkNrrdReader) (label : Z) : signature :=
  calculate_polydata_signature (smoothed_surface label_reader label).

(** What holds of the loop's results once the labels [done] have been
    visited: the accepted labels are some of them, in order; actors and
    signatures go in step; every recorded signature is the one of its label,
    whose iso-surface had points. *)
Definition loop_invariant {filters : SurfaceFilters}
    (label_reader : vtkNrrdReader) (done : list Z) (st : loop_state) : Prop :=
  contoured_labels st = done /\
  fst <$> processed_signatures st `sublist_of` done /\
  label_value <$> segmentation_actors st
  = (fun entry => Some (fst entry)) <$> processed_signatures st /\
  (forall l s, (l, s) ∈ processed_signatures st ->
     s = signature_of label_reader l /\
     GetNumberOfPoints (contour label_reader l) <> 0%nat).

(** The signature comes from a surface as VTK delivers it. *)
Definition from_polydata (s : signature) : Prop :=
  exists pd, polydata_wf pd /\ s = calculate_polydata_signature pd.

(** The fifteen codes the specification lists. *)
Definition orientation_codes : list string :=
  ["si"; "is"; "ap"; "pa"; "lr"; "rl"; "hf"; "I"; "Z";
   "hfsi"; "hfis"; "hfap"; "hfpa"; "hflr"; "hfrl"].

End Spec.

(** ** Sample inputs *)

Module Examples.
Import Vtk Imaging Geometry Segmentation Callbacks.
Local Open Scope R_scope.

(** A 100 x 100 x 60 volume with labels up to 3. *)
Definition sample_volume : vtkImageData :=
  {| GetSpacing := (1 / 2, 1 / 2, 2); GetOrigin := (0, 0, 0);
     GetDimensions := (100%Z, 100%Z, 60%Z); GetScalarRange := (0, 3) |}.

Definition sample_reader : vtkNrrdReader := {| produced := Some sample_volume |}.


Definition sample_lut : vtkLookupTable := fun _ => (1, 1, 1, 1).

(** Three surfaces: a closed cube, nothing at all, and a sheet one voxel
    thick, whose points all lie in the plane [z = 0]. *)
Definition cube_surface : vtkPolyData :=
  {| GetNumberOfPoints := 8; GetNumberOfCells := 12;
     GetBounds := mkBounds 0 1 0 1 0 1 |}.

Definition empty_surface : vtkPolyData :=
  {| GetNumberOfPoints := 0; GetNumberOfCells := 0;
     GetBounds := mkBounds 1 (-1) 1 (-1) 1 (-1) |}.

Definition flat_surface : vtkPolyData :=
  {| GetNumberOfPoints := 4; GetNumberOfCells := 2;
     GetBounds := mkBounds 0 1 0 1 0 0 |}.

(** Filters for a volume in which label 1 is the cube, label 2 is absent
    and label 3 is the sheet.  Smoothing and normals keep the counts and
    the box; the box of the transformed surface is not looked at. *)
Definition sample_filters : SurfaceFilters :=
  {| contour := fun _ label =>
       if (label =? 1)%Z then cube_surface
       else if (label =? 3)%Z then flat_surface
       else empty_surface;
     smooth := fun _ _ _ _ pd => pd;
     normals := fun _ _ pd => pd;
     transform_polydata := fun _ pd => pd |}.

Definition empty_renderer : vtkRenderer :=
  {| GetActors := []; clipping_range_resets := 0 |}.

Definition coronal_callback : SlicePlaneCallback :=
  SlicePlaneCallback_init sample_reader None new_vtkImageActor None "XZ"
                          new_vtkTransform sample_lut.

(** The signature of a cube mesh with edge 1 at the origin. *)
Definition unit_cube : signature :=
  {| num_points := 8; num_cells := 12; volume := 1;
     bounds := mkBounds 0 1 0 1 0 1 |}.


(** A signature without points (an empty surface reports the
    uninitialised box, of volume [-8]). *)
Definition empty_signature : signature :=
  {| num_points := 0; num_cells := 0; volume := -8;
     bounds := mkBounds 1 (-1) 1 (-1) 1 (-1) |}.

(** The toggle callback one key press before the 3D segmentation mode. *)
Definition sample_toggle : SliderToggleCallback :=
  {| sliders := ∅; label_actors := ∅; mesh_actors_dict := ∅;
     tg_label_reader := Some sample_reader;
     tg_renderer := Some empty_renderer;
     tg_lut := Some sample_lut;
     iren := true; mode_state := 2;
     tg_segmentation_actors := []; segmentation_sliders := ∅ |}.

End Examples.

(** ** main.py *)

Module Main.
Import Vtk Imaging Transforms SliceUtils.
Local Open Scope R_scope.

(** The orientation step of the tissue loop: a fresh [SliceOrder()], the
    transform of the configured code, then [trans.Scale(1, -1, -1)]. *)
Definition tissue_transform (order : string) : result vtkTransform :=
  let* trans := get SliceOrder_init order in
  Ok (Scale 1 (-1) (-1) trans).

(** Step 7d: the three slice planes as the application first builds them.
    [-dims[0] // 2] is the floor division of the negated dimension. *)
Definition create_initial_slice_planes (nrrd_reader : vtkNrrdReader)
    (label_reader : option vtkNrrdReader) (lut : vtkLookupTable)
  : result (slice_plane * slice_plane * slice_plane) :=
  let '(dims0, dims1, dims2) := GetDimensions (GetOutput nrrd_reader) in
  let* xy := create_slice_plane nrrd_reader label_reader "XY" (-50) lut in
  let* xz := create_slice_plane nrrd_reader label_reader "XZ"
                                (dims1 `div` 2) lut in
  let* yz := create_slice_plane nrrd_reader label_reader "YZ"
                                ((- dims0) `div` 2) lut in
  Ok (xy, xz, yz).

(** Step 7f: minimum, maximum and initial value handed to
    [make_slice_slider] for each of the three position sliders. *)
Record slider_range : Type := mkSliderRange {
  min_val : Z; max_val : Z; initial_val : Z
}.

Definition z_slice_range (dims : Z * Z * Z) : slider_range :=
  let '(dims0, dims1, dims2) := dims in
  {| min_val := - dims2; max_val := dims2 `div` 2; initial_val := -50 |}.

Definition y_slice_range (dims : Z * Z * Z) : slider_range :=
  let '(dims0, dims1, dims2) := dims in
  {| min_val := 0; max_val := dims1; initial_val := dims1 `div` 2 |}.

Definition x_slice_range (dims : Z * Z * Z) : slider_range :=
  let '(dims0, dims1, dims2) := dims in
  {| min_val := - dims0; max_val := 0; initial_val := (- dims0) `div` 2 |}.

End Main.

(** ** lut_utils.py *)

Module Lut.
Local Open Scope R_scope.


(** [x % 1.0] on floats: the result lies in [0, 1). *)
Definition mod_one (x : R) : R := x - IZR (Int_part x).



Definition hue (i : Z) : R := mod_one (IZR i * (6180339887 / 10000000000)).
Definition value (i : Z) : R :=
  8 / 10 + 2 / 10 * mod_one (IZR i * (236 / 1000)).





End Lut.

(** ** file_utils.py and the tissue table of config.py *)

Module FileUtils.

Inductive lookup_error : Type := KeyError (msg : string).

(** A Python [dict] with string keys, in insertion order. *)
Definition dict (V : Type) : Type := list (string * V).

Fixpoint dict_get {V : Type} (d : dict V) (key : string) : option V :=
  match d with
  | [] => None
  | (k, v) :: rest => if String.eqb k key then Some v else dict_get rest key
  end.

Definition keys {V : Type} (d : dict V) : list string := fst <$> d.

Definition TISSUE_TO_STEM : dict string :=
  [ ("ivc", "IVC");
    ("caudate_veins", "CaudateVeins");
    ("main_portal_vein", "MainPortalVein");
    ("left_portal_vein", "LeftPortalVein");
    ("right_portal_vein", "RightPortalVein");
    ("left_hepatic_vein", "LeftHepaticVein");
    ("middle_hepatic_vein", "MiddleHepaticVein");
    ("right_hepatic_vein", "RightHepaticVein");
    ("liver_segment_i", "LiverSegment_I");
    ("liver_segment_ii", "LiverSegment_II");
    ("liver_segment_iii", "LiverSegment_III");
    ("liver_segment_iva", "LiverSegment_IVa");
    ("liver_segment_ivb", "LiverSegment_IVb");
    ("liver_segment_v", "LiverSegment_V");
    ("liver_segment_vi", "LiverSegment_VI");
    ("liver_segment_vii", "LiverSegment_VII");
    ("liver_segment_viii", "LiverSegment_VIII");
    ("gallbladder", "Gallbladder");
    ("stomach", "Stomach");
    ("right_kidney", "RightKidney");
    ("left_kidney", "LeftKidney");
    ("spleen", "Spleen");
    ("aorta", "Aorta") ].

(** [token in stem]: substring test. *)
Fixpoint contains (token stem : string) : bool :=
  String.prefix token stem ||
  match stem with
  | EmptyString => false
  | String _ rest => contains token rest
  end.

(** [", ".join(names)] *)
Fixpoint join (names : list string) : string :=
  match names with
  | [] => EmptyString
  | [name] => name
  | name :: rest => name +:+ ", " +:+ join rest
  end.

(** The [for stem, path in vtk_map.items()] loop with its [return]. *)
Fixpoint first_match (token : string) (vtk_map : dict string) : option string :=
  match vtk_map with
  | [] => None
  | (stem, path) :: rest =>
      if contains token stem then Some path else first_match token rest
  end.

(** [resolve_vtk_file]; paths are strings. *)
Definition resolve_vtk_file (tissue : string) (vtk_map : dict string)
  : lookup_error + string :=
  let key := Callbacks.lower tissue in
  match dict_get TISSUE_TO_STEM key with
  | None =>
      inl (KeyError ("Nie znaleziono aliasu dla tkanki " +:+ Transforms.dquote
                     +:+ tissue +:+ Transforms.dquote
                     +:+ ". Dostępne tkanki: " +:+ join (keys TISSUE_TO_STEM)))
  | Some token =>
      match first_match token vtk_map with
      | Some path => inr path
      | None =>
          inl (KeyError ("Nie znaleziono pliku VTK dla tkanki "
                         +:+ Transforms.dquote +:+ tissue +:+ Transforms.dquote
                         +:+ ". Szukano pliku zawierającego token "
                         +:+ Transforms.dquote +:+ token +:+ Transforms.dquote
                         +:+ " w nazwach: " +:+ join (keys vtk_map)))
      end
  end.

End FileUtils.

(** ** Notions used to state further properties *)

Module Notions.
Import Vtk Imaging Geometry Segmentation Callbacks Spec Main.
Local Open Scope R_scope.



(** Squared Euclidean norm of a point. *)
Definition norm2 (p : point3) : R :=
  let '(x, y, z) := p in x * x + y * y + z * z.

(** A matrix with four rows of four entries. *)
Definition is_4x4 (m : vtkMatrix4x4) : Prop :=
  length m = 4%nat /\ Forall (fun row => length row = 4%nat) m.

(** The actors of a scene that were not made by the reconstruction. *)
Definition other_actors (r : vtkRenderer) : list vtkActor :=
  filter (fun actor => is_segmentation_3d actor = false) (GetActors r).

(** The position slider that main.py couples with the callback of each
    plane, and the number of voxels along the plane's normal. *)
Definition slider_of_plane (p : plane) (dims : Z * Z * Z) : slider_range :=
  match p with
  | Axial => z_slice_range dims
  | Coronal => y_slice_range dims
  | Sagittal => x_slice_range dims
  end.

Definition dim_component (p : plane) (dims : Z * Z * Z) : Z :=
  let '(dim_x, dim_y, dim_z) := dims in
  match p with Axial => dim_z | Coronal => dim_y | Sagittal => dim_x end.

(** The largest absolute index the slider of a plane can reach. *)
Definition top_index (p : plane) (dims : Z * Z * Z) : Z :=
  match p with
  | Axial => 2 * (dim_component p dims `div` 2)
  | _ => dim_component p dims `div` 2
  end%Z.

(** The opacity slider of the reconstructed surface listed at position
    [idx]: two columns, rows from the top downwards. *)
Definition segmentation_slider (idx label : Z) (color : R * R * R)
  : vtkSliderWidget :=
  let y := top_y - IZR (idx `div` 2) * step_y in
  {| Enabled := true; SliderValue := 9 / 10;
     title := "Seg " +:+ pretty label;
     p1 := (if (idx `mod` 2 =? 0)%Z then right_x0_col1 else right_x0_col2, y);
     p2 := (if (idx `mod` 2 =? 0)%Z then right_x1_col1 else right_x1_col2, y);
     title_color := color |}.

(** [token] occurs in [stem] as a contiguous piece. *)
Definition is_substring (token stem : string) : Prop :=
  exists before after, stem = before +:+ token +:+ after.

(** Text made of ASCII characters only. *)
Fixpoint is_ascii (s : string) : bool :=
  match s with
  | EmptyString => true
  | String c rest => (nat_of_ascii c <? 128)%nat && is_ascii rest
  end.

End Notions.

(** ** Further sample inputs *)

Module MoreExamples.
Import Vtk Imaging Geometry Segmentation Callbacks FileUtils Examples.
Local Open Scope R_scope.

(** A volume with an odd number of voxels along x. *)
Definition odd_volume : vtkImageData :=
  {| GetSpacing := (1 / 2, 1 / 2, 2); GetOrigin := (0, 0, 0);
     GetDimensions := (101%Z, 100%Z, 60%Z); GetScalarRange := (0, 3) |}.

Definition odd_reader : vtkNrrdReader := {| produced := Some odd_volume |}.

(** A scene holding one tissue mesh. *)
Definition tissue_actor : vtkActor :=
  {| ActorInput := Some cube_surface; Visibility := true;
     Representation := Surface; Color := (1, 0, 0); Opacity := 1;
     Ambient := 0; Specular := 0; SpecularPower := 1;
     is_segmentation_3d := false; label_value := None |}.

Definition tissue_renderer : vtkRenderer :=
  {| GetActors := [tissue_actor]; clipping_range_resets := 0 |}.

(** A file map that lists the file of segment II before that of
    segment I. *)
Definition segment_files : dict string :=
  [ ("LiverSegment_II", "/data/LiverSegment_II.vtk");
    ("LiverSegment_I", "/data/LiverSegment_I.vtk") ].

End MoreExamples.

(** * Properties *)

(** ** Numbers *)

Module NumFacts.
Local Open Scope R_scope.

Lemma Reqb_true x y : Reqb x y = true <-> x = y.
Proof. unfold Reqb. destruct (Req_dec_T x y); split; congruence. Qed.

Lemma Reqb_false x y : Reqb x y = false <-> x <> y.
Proof. unfold Reqb. destruct (Req_dec_T x y); split; congruence. Qed.

Lemma Rgeb_true x y : Rgeb x y = true <-> x >= y.
Proof. unfold Rgeb. destruct (Rge_dec x y); split; congruence. Qed.

Lemma Rgeb_false x y : Rgeb x y = false <-> x < y.
Proof.
  unfold Rgeb. destruct (Rge_dec x y); split; try congruence; intros; lra.
Qed.

Lemma Rgtb_true x y : Rgtb x y = true <-> x > y.
Proof. unfold Rgtb. destruct (Rgt_dec x y); split; congruence. Qed.

Lemma Rgtb_false x y : Rgtb x y = false <-> x <= y.
Proof.
  unfold Rgtb. destruct (Rgt_dec x y); split; try congruence; intros; lra.
Qed.

Lemma py_div_ok x y : y <> 0 -> py_div x y = Ok (x / y).
Proof. intros H. unfold py_div. apply Reqb_false in H. now rewrite H. Qed.

Lemma math_sqrt_ok x : 0 <= x -> math_sqrt x = Ok (sqrt x).
Proof. intros H. unfold math_sqrt. apply Rgtb_false in H. now rewrite H. Qed.

Lemma py_max0_Rmax x : py_max0 x = Rmax 0 x.
Proof.
  unfold py_max0, Rgtb, Rmax.
  destruct (Rgt_dec x 0), (Rle_dec 0 x); lra.
Qed.

Lemma py_min_Rmin x y : py_min x y = Rmin x y.
Proof.
  unfold py_min, Rgtb, Rmin.
  destruct (Rgt_dec x y), (Rle_dec x y); lra.
Qed.

Lemma py_max_Rmax x y : py_max x y = Rmax x y.
Proof.
  unfold py_max, Rgtb, Rmax.
  destruct (Rgt_dec y x), (Rle_dec x y); lra.
Qed.

(** [Int_part] is the floor: the integer [k] with [k <= x < k + 1]. *)
Lemma Int_part_spec x k : IZR k <= x < IZR k + 1 -> Int_part x = k.
Proof.
  intros [Hl Hu]. destruct (base_Int_part x) as [H1 H2].
  assert (IZR (Int_part x) < IZR k + 1) by lra.
  assert (IZR k < IZR (Int_part x) + 1) by lra.
  rewrite <- plus_IZR in *.
  apply lt_IZR in H, H0. lia.
Qed.

Lemma Int_part_IZR k : Int_part (IZR k) = k.
Proof. apply Int_part_spec. lra. Qed.

Lemma py_int_IZR k : py_int (IZR k) = k.
Proof.
  unfold py_int, Rgeb. destruct (Rge_dec (IZR k) 0).
  - apply Int_part_IZR.
  - rewrite <- opp_IZR, Int_part_IZR. lia.
Qed.

Lemma py_int_nonneg x : 0 <= x -> py_int x = Int_part x.
Proof.
  intros H. unfold py_int, Rgeb. destruct (Rge_dec x 0); [done | lra].
Qed.

Lemma py_int_neg x : x < 0 -> (py_int x <= 0)%Z /\ (Int_part x < 0)%Z.
Proof.
  intros H. unfold py_int, Rgeb. destruct (Rge_dec x 0); [lra |].
  destruct (base_Int_part (- x)) as [H1 H2].
  destruct (base_Int_part x) as [H3 H4].
  split.
  - assert (IZR (-1) < IZR (Int_part (- x))) by lra.
    apply lt_IZR in H0. lia.
  - assert (IZR (Int_part x) < IZR 0) by lra.
    now apply lt_IZR in H0.
Qed.

(** [range(1, int(M) + 1)] is the list [1, ..., floor M]. *)
Lemma range_to_floor M : py_range 1 (py_int M + 1) = seqZ 1 (Int_part M).
Proof.
  unfold py_range. destruct (Rle_lt_dec 0 M) as [H | H].
  - rewrite py_int_nonneg by done. f_equal. lia.
  - destruct (py_int_neg M H) as [H1 H2].
    rewrite !seqZ_nil by lia. done.
Qed.

End NumFacts.
Export NumFacts.

(** ** The similarity comparator *)

Module GeometryFacts.
Import Geometry Spec Examples.
Local Open Scope R_scope.

Lemma nonempty_true s : nonempty s = true <-> nonzero_metrics s.
Proof.
  unfold nonempty, nonzero_metrics.
  rewrite !andb_true_iff, !negb_true_iff, !Z.eqb_neq, Reqb_false. tauto.
Qed.

Lemma nonempty_false s : nonempty s = false <-> zero_metric s.
Proof.
  unfold nonempty, zero_metric.
  rewrite !andb_false_iff, !negb_false_iff, !Z.eqb_eq, Reqb_true. tauto.
Qed.

(** The squared distance handed to [math.sqrt] is a sum of squares. *)
Lemma center_dist_ok a b :
  center_dist a b = Ok (euclidean_distance (box_center a) (box_center b)).
Proof.
  unfold center_dist, center, py_sum, euclidean_distance, box_center. cbn.
  rewrite math_sqrt_ok.
  - do 2 f_equal. ring.
  - assert (H : forall x : R, 0 <= x * (x * 1)) by (intros; nra).
    pose proof (H ((b0 a + b1 a) / 2 - (b0 b + b1 b) / 2)).
    pose proof (H ((b2 a + b3 a) / 2 - (b2 b + b3 b) / 2)).
    pose proof (H ((b4 a + b5 a) / 2 - (b4 b + b5 b) / 2)).
    lra.
Qed.

Lemma center_similarity_ok a b :
  center_similarity a b =
  Ok (if Reqb (mean_extent a b) 0 then 1 else spec_center_similarity a b).
Proof.
  unfold center_similarity. rewrite center_dist_ok. cbn.
  change (avg_size a b) with (mean_extent a b).
  destruct (Reqb (mean_extent a b) 0) eqn:E; [done |].
  apply Reqb_false in E. rewrite py_div_ok by done. cbn.
  now rewrite py_max0_Rmax.
Qed.

Lemma Zmax_nonzero a b : a <> 0%Z -> b <> 0%Z -> IZR (Z.max a b) <> 0.
Proof. intros Ha Hb H. apply eq_IZR in H. lia. Qed.

Lemma py_max_nonzero a b : a <> 0 -> b <> 0 -> py_max a b <> 0.
Proof. intros Ha Hb. unfold py_max. now destruct (Rgtb b a). Qed.

(** The comparator never raises, and its verdict is the conjunction of the
    three guards and the four comparisons. *)
Lemma are_polydata_similar_eq s1 s2 t :
  are_polydata_similar s1 s2 t =
  Ok (nonempty s1 && nonempty s2
      && Rgeb (ratio_of_counts (num_points s1) (num_points s2)) t
      && Rgeb (ratio_of_counts (num_cells s1) (num_cells s2)) t
      && Rgeb (ratio_of_volumes (volume s1) (volume s2)) t
      && Rgeb (if Reqb (mean_extent (bounds s1) (bounds s2)) 0 then 1
               else spec_center_similarity (bounds s1) (bounds s2))
              center_bar).
Proof.
  unfold are_polydata_similar, nonempty.
  destruct (num_points s1 =? 0)%Z eqn:P1; [done |].
  destruct (num_points s2 =? 0)%Z eqn:P2; [now rewrite ?andb_false_r |].
  destruct (num_cells s1 =? 0)%Z eqn:C1; [done |].
  destruct (num_cells s2 =? 0)%Z eqn:C2; [now rewrite ?andb_false_r |].
  destruct (Reqb (volume s1) 0) eqn:V1; [done |].
  destruct (Reqb (volume s2) 0) eqn:V2; [now rewrite ?andb_false_r |].
  apply Z.eqb_neq in P1, P2, C1, C2. apply Reqb_false in V1, V2.
  unfold points_ratio, cells_ratio, volume_ratio.
  rewrite !py_div_ok by auto using Zmax_nonzero, py_max_nonzero.
  cbn. rewrite center_similarity_ok. cbn.
  rewrite py_min_Rmin, py_max_Rmax.
  unfold ratio_of_counts, ratio_of_volumes.
  now destruct (_ && _ && _ && _).
Qed.

Lemma are_polydata_similar_total s1 s2 t :
  exists b, are_polydata_similar s1 s2 t = Ok b.
Proof. rewrite are_polydata_similar_eq. eauto. Qed.




Ltac solve_metrics :=
  unfold nonzero_metrics, zero_metric, box_signature, box_volume; cbn;
  repeat split; first [lia | lra].


Lemma zero_metric_not_similar sig sig2 t :
  zero_metric sig ->
  are_polydata_similar sig sig2 t = Ok false /\
  are_polydata_similar sig2 sig t = Ok false.
Proof.
  intros Z. apply nonempty_false in Z.
  rewrite !are_polydata_similar_eq, Z. cbn.
  now rewrite ?andb_false_r.
Qed.

(** C8: a signature with zero points, zero cells or zero volume is similar
    to nothing, itself included, in either argument order and at every
    threshold; the comparator returns [False] and raises nothing. *)
Theorem zero_metric_never_similar sig sig2 t :
  zero_metric sig ->
  are_polydata_similar sig sig2 t = Ok false /\
  are_polydata_similar sig2 sig t = Ok false /\
  are_polydata_similar sig sig t = Ok false.
Proof.
  intros Z.
  destruct (zero_metric_not_similar sig sig2 t Z) as [H1 H2].
  destruct (zero_metric_not_similar sig sig t Z) as [H3 _].
  auto.
Qed.

Lemma zero_metric_never_similar_witness :
  zero_metric empty_signature /\
  are_polydata_similar empty_signature unit_cube (1 / 2) = Ok false /\
  are_polydata_similar unit_cube empty_signature (1 / 2) = Ok false /\
  are_polydata_similar empty_signature empty_signature (1 / 2) = Ok false.
Proof.
  split; [left; reflexivity |].
  apply (zero_metric_never_similar empty_signature unit_cube (1 / 2)).
  left; reflexivity.
Defined.

(** C9: lowering the threshold keeps a positive verdict. *)
Theorem similarity_monotone sigA sigB t1 t2 :
  t2 < t1 ->
  are_polydata_similar sigA sigB t1 = Ok true ->
  are_polydata_similar sigA sigB t2 = Ok true.
Proof.
  intros Hlt. rewrite !are_polydata_similar_eq. intros H.
  injection H as H. f_equal.
  rewrite !andb_true_iff, !Rgeb_true in *.
  intuition lra.
Qed.

Lemma euclidean_distance_same p : euclidean_distance p p = 0.
Proof.
  destruct p as [[x y] z]. unfold euclidean_distance.
  replace ((x - x) ^ 2 + (y - y) ^ 2 + (z - z) ^ 2) with 0 by ring.
  apply sqrt_0.
Qed.

Lemma spec_center_similarity_same b : spec_center_similarity b b = 1.
Proof.
  unfold spec_center_similarity. rewrite euclidean_distance_same.
  unfold Rdiv. rewrite Rmult_0_l, Rminus_0_r.
  unfold Rmax. destruct (Rle_dec 0 1); lra.
Qed.

Lemma ratio_of_counts_same a : a <> 0%Z -> ratio_of_counts a a = 1.
Proof.
  intros H. unfold ratio_of_counts. rewrite Z.min_id, Z.max_id.
  field. intros E. now apply eq_IZR in E.
Qed.

Lemma ratio_of_volumes_same a : a <> 0 -> ratio_of_volumes a a = 1.
Proof.
  intros H. unfold ratio_of_volumes, Rmin, Rmax.
  destruct (Rle_dec a a); now field.
Qed.

(** A surface is a duplicate of itself at every threshold up to 1. *)
Lemma similar_to_itself s t :
  nonzero_metrics s -> t <= 1 -> are_polydata_similar s s t = Ok true.
Proof.
  intros N Ht. pose proof N as (P & C & V).
  apply nonempty_true in N.
  rewrite are_polydata_similar_eq, N, !ratio_of_counts_same,
    ratio_of_volumes_same, spec_center_similarity_same by done.
  assert (G : Rgeb 1 t = true) by (apply Rgeb_true; lra).
  assert (B : Rgeb 1 center_bar = true)
    by (apply Rgeb_true; unfold center_bar; lra).
  rewrite G. destruct (Reqb _ _); now rewrite B.
Qed.

Lemma similarity_monotone_witness :
  1 / 2 < 9 / 10 /\
  are_polydata_similar unit_cube unit_cube (9 / 10) = Ok true /\
  are_polydata_similar unit_cube unit_cube (1 / 2) = Ok true.
Proof.
  assert (H : are_polydata_similar unit_cube unit_cube (9 / 10) = Ok true)
    by (apply similar_to_itself; [solve_metrics | lra]).
  split; [lra |]. split; [exact H |].
  apply (similarity_monotone unit_cube unit_cube (9 / 10) (1 / 2)); [lra | exact H].
Defined.

End GeometryFacts.

(** ** The orientation table *)

Module TransformFacts.
Import Vtk Transforms Spec.
Local Open Scope R_scope.

Ltac point_eq :=
  unfold TransformPoint, MultiplyPoint; cbn; (f_equal; [f_equal |]); ring.

(** In pre-multiply mode the matrix concatenated last acts on the point
    first: "hfsi" is si followed by hf. *)
Lemma hfsi_is_hf_after_si p :
  TransformPoint hf_si_trans p = TransformPoint hf_trans (TransformPoint si_trans p).
Proof. destruct p as [[x y] z]. point_eq. Qed.

Lemma hfis_is_hf_after_is p :
  TransformPoint hf_is_trans p = TransformPoint hf_trans (TransformPoint is_trans p).
Proof. destruct p as [[x y] z]. point_eq. Qed.

(** For the four other composites the two stages commute, so the order of
    application cannot be observed. *)
Lemma hfap_either_order p :
  TransformPoint hf_ap_trans p = TransformPoint ap_trans (TransformPoint hf_trans p).
Proof. destruct p as [[x y] z]. point_eq. Qed.

Lemma hfpa_either_order p :
  TransformPoint hf_pa_trans p = TransformPoint pa_trans (TransformPoint hf_trans p).
Proof. destruct p as [[x y] z]. point_eq. Qed.

Lemma hflr_either_order p :
  TransformPoint hf_lr_trans p = TransformPoint lr_trans (TransformPoint hf_trans p).
Proof. destruct p as [[x y] z]. point_eq. Qed.

Lemma hfrl_either_order p :
  TransformPoint hf_rl_trans p = TransformPoint rl_trans (TransformPoint hf_trans p).
Proof. destruct p as [[x y] z]. point_eq. Qed.

(** C2: what the table does for "hfsi".  The stored transform applies the
    si matrix to the point first and the hf matrix second; at the point
    (0, 1, 0) it yields (0, 0, 1), whereas hf first and si second yields
    (0, 0, -1). *)
Theorem hfsi_applies_si_first :
  get SliceOrder_init "hfsi" = Ok hf_si_trans /\
  (forall p, TransformPoint hf_si_trans p
             = TransformPoint hf_trans (TransformPoint si_trans p)) /\
  TransformPoint hf_si_trans (0, 1, 0) = (0, 0, 1) /\
  TransformPoint si_trans (TransformPoint hf_trans (0, 1, 0)) = (0, 0, -1) /\
  TransformPoint hf_si_trans (0, 1, 0)
  <> TransformPoint si_trans (TransformPoint hf_trans (0, 1, 0)).
Proof.
  assert (A : TransformPoint hf_si_trans (0, 1, 0) = (0, 0, 1)) by point_eq.
  assert (B : TransformPoint si_trans (TransformPoint hf_trans (0, 1, 0))
              = (0, 0, -1)) by point_eq.
  split; [reflexivity |]. split; [apply hfsi_is_hf_after_si |].
  split; [exact A |]. split; [exact B |].
  rewrite A, B. intros E. injection E as E. lra.
Qed.

(** The same holds for "hfis". *)
Lemma hfis_applies_is_first :
  TransformPoint hf_is_trans (0, 1, 0)
  <> TransformPoint is_trans (TransformPoint hf_trans (0, 1, 0)).
Proof.
  assert (A : TransformPoint hf_is_trans (0, 1, 0) = (0, 0, 1)) by point_eq.
  assert (B : TransformPoint is_trans (TransformPoint hf_trans (0, 1, 0))
              = (0, 0, -1)) by point_eq.
  rewrite A, B. intros E. injection E as E. lra.
Qed.

Ltac not_in_list :=
  let H := fresh in
  intros H;
  repeat (apply elem_of_cons in H as [H | H]; [discriminate H |]);
  by apply elem_of_nil in H.

Lemma lookup_unknown order :
  order ∉ orientation_codes -> transform SliceOrder_init !! order = None.
Proof.
  intros H. unfold SliceOrder_init. cbn [transform].
  repeat (rewrite lookup_insert_ne;
          [| intros <-; apply H; unfold orientation_codes;
             repeat first [apply list_elem_of_here | apply list_elem_of_further]]).
  apply lookup_empty.
Qed.

Lemma lookup_known order :
  order ∈ orientation_codes -> is_Some (transform SliceOrder_init !! order).
Proof.
  unfold orientation_codes. intros H.
  repeat (apply elem_of_cons in H as [-> | H]; [by eexists |]).
  by apply elem_of_nil in H.
Qed.

(** C4, as the code has it: the table holds fifteen entries, the fifteen
    listed codes; [get] returns the stored transform for each of them and
    raises the "No such transform" exception for every other string. *)
Theorem get_fixed_table order :
  length orientation_codes = 15%nat /\
  NoDup orientation_codes /\
  size (transform SliceOrder_init) = 15%nat /\
  (order ∈ orientation_codes ->
   exists t, transform SliceOrder_init !! order = Some t /\
             get SliceOrder_init order = Ok t) /\
  (order ∉ orientation_codes ->
   get SliceOrder_init order
   = Raise (Exception ("No such transform " +:+ dquote +:+ order +:+ dquote
                       +:+ " exists."))).
Proof.
  split; [reflexivity |].
  split; [unfold orientation_codes;
          repeat (apply NoDup_cons_2; [not_in_list |]); apply NoDup_nil_2 |].
  split; [reflexivity |]. split.
  - intros H. destruct (lookup_known order H) as [t Ht].
    exists t. split; [done |]. unfold get. now rewrite Ht.
  - intros H. unfold get. now rewrite lookup_unknown.
Qed.

Lemma get_fixed_table_witness :
  ("hfap" ∈ orientation_codes ->
   exists t, transform SliceOrder_init !! "hfap" = Some t /\
             get SliceOrder_init "hfap" = Ok t) /\
  get SliceOrder_init "unknown"
  = Raise (Exception ("No such transform " +:+ dquote +:+ "unknown" +:+ dquote
                      +:+ " exists.")).
Proof.
  split.
  - apply (get_fixed_table "hfap").
  - apply (get_fixed_table "unknown").
    unfold orientation_codes. not_in_list.
Defined.

(** The table does not have sixteen entries. *)
Lemma table_size_is_not_16 : size (transform SliceOrder_init) <> 16%nat.
Proof.
  assert (E : size (transform SliceOrder_init) = 15%nat) by reflexivity.
  rewrite E. lia.
Qed.

End TransformFacts.

(** ** The slice transform engine *)

Module SliceFacts.
Import Vtk Imaging SliceUtils Callbacks Spec Examples.
Local Open Scope R_scope.

#[local] Opaque Translate RotateX RotateY RotateZ Scale new_vtkTransform.

(** [create_slice_plane] against the table of the specification. *)
Lemma create_slice_plane_table p reader label_reader lut s :
  exists sp,
    create_slice_plane reader label_reader (plane_code p) s lut = Ok sp /\
    ResliceAxesDirectionCosines (reslice sp) = axis_directions p /\
    ResliceAxesOrigin (reslice sp)
    = reslice_origin p (physical_coordinate p s
                          (GetDimensions (GetOutput reader))
                          (GetSpacing (GetOutput reader))) /\
    plane_transform sp
    = placement p (physical_coordinate p s
                     (GetDimensions (GetOutput reader))
                     (GetSpacing (GetOutput reader))) /\
    UserTransform (actor_gray sp) = Some (plane_transform sp).
Proof.
  unfold create_slice_plane, physical_coordinate, placement.
  destruct (GetSpacing (GetOutput reader)) as [[sx sy] sz].
  destruct (GetDimensions (GetOutput reader)) as [[dx dy] dz].
  destruct p; cbn; eexists; (split; [reflexivity |]); cbn; auto.
Qed.

(** [SlicePlaneCallback.__call__] against the same table; the slider
    delivers the integer [s] as a float. *)
Lemma SlicePlaneCallback_table p self s :
  sp_orientation self = plane_code p ->
  exists self' r,
    SlicePlaneCallback_call self (IZR s) = Ok self' /\
    current_reslice self' = Some r /\
    ResliceAxesDirectionCosines r = axis_directions p /\
    ResliceAxesOrigin r
    = reslice_origin p (physical_coordinate p s (sp_dims self) (sp_spacing self)) /\
    sp_transform self'
    = placement p (physical_coordinate p s (sp_dims self) (sp_spacing self)).
Proof.
  intros Ho.
  unfold SlicePlaneCallback_call, physical_coordinate, placement, current_reslice.
  rewrite py_int_IZR, Ho.
  destruct (sp_spacing self) as [[sx sy] sz].
  destruct (sp_dims self) as [[dx dy] dz].
  destruct p; cbn; do 2 eexists; (split; [reflexivity |]); cbn; auto.
Qed.

(** C3: for every volume geometry and every integer slice number, both
    the constructor of a slice plane and the slider callback compute the
    axis directions, the absolute index, the physical coordinate (index
    times the matching spacing), the reslice origin (two coordinates zero)
    and the placement transform (identity, scale(1,-1,-1), the rotations of
    the plane, translate(0,0,-coordinate)) of the table; the coronal plane
    uses the negated slice number. *)
Theorem slice_engine_table p reader label_reader lut s self :
  sp_orientation self = plane_code p ->
  (exists sp,
     create_slice_plane reader label_reader (plane_code p) s lut = Ok sp /\
     ResliceAxesDirectionCosines (reslice sp) = axis_directions p /\
     ResliceAxesOrigin (reslice sp)
     = reslice_origin p (physical_coordinate p s
                           (GetDimensions (GetOutput reader))
                           (GetSpacing (GetOutput reader))) /\
     plane_transform sp
     = placement p (physical_coordinate p s
                      (GetDimensions (GetOutput reader))
                      (GetSpacing (GetOutput reader))) /\
     UserTransform (actor_gray sp) = Some (plane_transform sp)) /\
  (exists self' r,
     SlicePlaneCallback_call self (IZR s) = Ok self' /\
     current_reslice self' = Some r /\
     ResliceAxesDirectionCosines r = axis_directions p /\
     ResliceAxesOrigin r
     = reslice_origin p (physical_coordinate p s (sp_dims self) (sp_spacing self)) /\
     sp_transform self'
     = placement p (physical_coordinate p s (sp_dims self) (sp_spacing self))).
Proof.
  intros Ho. split.
  - apply create_slice_plane_table.
  - now apply SlicePlaneCallback_table.
Qed.

Lemma slice_engine_table_witness :
  sp_orientation coronal_callback = plane_code Coronal /\
  (exists sp,
     create_slice_plane sample_reader None "XZ" 5 sample_lut = Ok sp /\
     ResliceAxesDirectionCosines (reslice sp) = [-1; 0; 0; 0; 0; 1; 0; 1; 0]%Z /\
     ResliceAxesOrigin (reslice sp) = (0, IZR (- 5 + 100 `div` 2) * (1 / 2), 0) /\
     plane_transform sp
     = Translate 0 0 (- (IZR (- 5 + 100 `div` 2) * (1 / 2)))
         (RotateZ 180 (RotateX 90 (Scale 1 (-1) (-1) new_vtkTransform))) /\
     UserTransform (actor_gray sp) = Some (plane_transform sp)) /\
  (exists self' r,
     SlicePlaneCallback_call coronal_callback 5 = Ok self' /\
     current_reslice self' = Some r /\
     ResliceAxesDirectionCosines r = [-1; 0; 0; 0; 0; 1; 0; 1; 0]%Z /\
     ResliceAxesOrigin r = (0, IZR (- 5 + 100 `div` 2) * (1 / 2), 0) /\
     sp_transform self'
     = Translate 0 0 (- (IZR (- 5 + 100 `div` 2) * (1 / 2)))
         (RotateZ 180 (RotateX 90 (Scale 1 (-1) (-1) new_vtkTransform)))).
Proof.
  split; [reflexivity |].
  apply (slice_engine_table Coronal sample_reader None sample_lut 5
                            coronal_callback).
  reflexivity.
Defined.




(** The index and coordinate of the table, written out. *)
Lemma physical_coordinate_cases s dx dy dz sx sy sz :
  physical_coordinate Axial s (dx, dy, dz) (sx, sy, sz)
  = IZR (s + dz `div` 2) * sz /\
  physical_coordinate Coronal s (dx, dy, dz) (sx, sy, sz)
  = IZR (- s + dy `div` 2) * sy /\
  physical_coordinate Sagittal s (dx, dy, dz) (sx, sy, sz)
  = IZR (s + dx `div` 2) * sx.
Proof. done. Qed.

(** Opposite coronal slice numbers sit symmetrically about the centre row. *)
Lemma coronal_opposite_slices s dims spacing :
  physical_coordinate Coronal s dims spacing
  + physical_coordinate Coronal (- s) dims spacing
  = 2 * physical_coordinate Coronal 0 dims spacing.
Proof.
  destruct dims as [[dx dy] dz], spacing as [[sx sy] sz].
  unfold physical_coordinate, absolute_index, spacing_component.
  rewrite !plus_IZR, !opp_IZR. lra.
Qed.

#[local] Transparent Translate RotateX RotateY RotateZ Scale new_vtkTransform.

Lemma cos_sin_90 : cos (radians 90) = 0 /\ sin (radians 90) = 1.
Proof.
  replace (radians 90) with (PI / 2) by (unfold radians; field).
  split; [apply cos_PI2 | apply sin_PI2].
Qed.

Lemma cos_sin_180 : cos (radians 180) = -1 /\ sin (radians 180) = 0.
Proof.
  replace (radians 180) with PI by (unfold radians; field).
  split; [apply cos_PI | apply sin_PI].
Qed.

Lemma cos_sin_minus_90 : cos (radians (-90)) = 0 /\ sin (radians (-90)) = -1.
Proof.
  replace (radians (-90)) with (- (PI / 2)) by (unfold radians; field).
  rewrite cos_neg, sin_neg, cos_PI2, sin_PI2. split; lra.
Qed.

(** Where each placement puts a point of the resliced image. *)
Lemma placement_acts c x y z :
  TransformPoint (placement Axial c) (x, y, z) = (x, - y, c - z) /\
  TransformPoint (placement Coronal c) (x, y, z) = (- x, z - c, y) /\
  TransformPoint (placement Sagittal c) (x, y, z) = (c - z, - x, y).
Proof.
  destruct cos_sin_90 as [C90 S90], cos_sin_180 as [C180 S180],
    cos_sin_minus_90 as [Cm90 Sm90].
  unfold placement, plane_rotations, TransformPoint, MultiplyPoint,
    Translate, RotateX, RotateY, RotateZ, Scale, Concatenate,
    rotate_x_matrix, rotate_y_matrix, rotate_z_matrix.
  rewrite C90, S90, C180, S180, Cm90, Sm90.
  cbn. repeat split; (f_equal; [f_equal |]); ring.
Qed.

End SliceFacts.

(** ** The reconstruction loop *)

Module SegmentationFacts.
Import Vtk Imaging Geometry Segmentation Spec Examples GeometryFacts.
Local Open Scope R_scope.

Section Loop.
Context {filters : SurfaceFilters}.
Variables (label_reader : vtkNrrdReader) (lut : vtkLookupTable).

#[local] Abbreviation signature_of := (signature_of label_reader).
#[local] Abbreviation loop_invariant := (loop_invariant label_reader).

(** The duplicate check returns a boolean: whether some earlier signature
    is similar. *)
Lemma is_duplicate_spec cur processed t :
  exists b, is_duplicate cur processed t = Ok b /\
    (b = true <->
     exists l prev, (l, prev) ∈ processed /\
                    are_polydata_similar cur prev t = Ok true).
Proof.
  induction processed as [| [l prev] rest IH]; cbn.
  - exists false. split; [done |]. split; [done |].
    intros (l & prev & H & _). by apply elem_of_nil in H.
  - destruct (are_polydata_similar_total cur prev t) as [b Hb].
    rewrite Hb. cbn. destruct b.
    + exists true. split; [done |]. split; [| done].
      intros _. exists l, prev. split; [left | done].
    + destruct IH as (b & E & Hiff). exists b. split; [done |].
      rewrite Hiff. split.
      * intros (l' & p' & Hin & Hs). exists l', p'. split; [by right | done].
      * intros (l' & p' & Hin & Hs).
        apply elem_of_cons in Hin as [Heq | Hin]; [| by eauto].
        injection Heq as -> ->. congruence.
Qed.

(** One iteration either leaves the results alone (no surface, or a
    duplicate) or appends one surface; it never raises. *)
Lemma process_label_cases t label st :
  exists st',
    process_label label_reader lut t label st = Ok st' /\
    contoured_labels st' = contoured_labels st ++ [label] /\
    ((processed_signatures st' = processed_signatures st /\
      segmentation_actors st' = segmentation_actors st /\
      st_renderer st' = st_renderer st /\
      (GetNumberOfPoints (contour label_reader label) = 0%nat \/
       is_duplicate (signature_of label) (processed_signatures st) t = Ok true))
     \/
     (processed_signatures st'
      = processed_signatures st ++ [(label, signature_of label)] /\
      segmentation_actors st'
      = segmentation_actors st
        ++ [make_actor (smoothed_surface label_reader label) lut label] /\
      GetNumberOfPoints (contour label_reader label) <> 0%nat /\
      is_duplicate (signature_of label) (processed_signatures st) t = Ok false)).
Proof.
  unfold process_label, smoothed_surface.
  destruct (GetNumberOfPoints (contour label_reader label) =? 0)%nat eqn:E.
  - apply Nat.eqb_eq in E. eexists. split; [done |]. cbn. auto 10.
  - apply Nat.eqb_neq in E. cbn [processed_signatures].
    destruct (is_duplicate_spec
                (calculate_polydata_signature
                   (smooth 20 (1 / 10) false true (contour label_reader label)))
                (processed_signatures st) t) as (b & Hb & _).
    rewrite Hb. cbn. destruct b; eexists; (split; [done |]); cbn; auto 10.
Qed.

(** C6, second half: a label without surface points changes nothing but
    the record of visited labels, and the loop goes on. *)
Lemma empty_surface_skipped t label st :
  GetNumberOfPoints (contour label_reader label) = 0%nat ->
  exists st',
    process_label label_reader lut t label st = Ok st' /\
    contoured_labels st' = contoured_labels st ++ [label] /\
    processed_signatures st' = processed_signatures st /\
    segmentation_actors st' = segmentation_actors st /\
    st_renderer st' = st_renderer st.
Proof.
  intros H. unfold process_label. apply Nat.eqb_eq in H. rewrite H.
  eexists. split; [done |]. cbn. auto.
Qed.

Lemma make_actor_label pd label : label_value (make_actor pd lut label) = Some label.
Proof. unfold make_actor. now destruct (lut label) as [[[r g] b] a]. Qed.

Lemma process_label_invariant t label done st :
  loop_invariant done st ->
  exists st', process_label label_reader lut t label st = Ok st' /\
              loop_invariant (done ++ [label]) st'.
Proof.
  intros (Hlog & Hsub & Hact & Hsig).
  destruct (process_label_cases t label st)
    as (st' & E & Hlog' & [(Hp & Ha & _ & _) | (Hp & Ha & Hn & _)]);
    exists st'; (split; [done |]); unfold loop_invariant;
    rewrite Hlog', Hlog, Hp, Ha.
  - split; [done |]. split; [by apply sublist_inserts_r |]. done.
  - split; [done |]. rewrite !fmap_app. cbn. split; [| split].
    + by apply sublist_app.
    + now rewrite Hact, make_actor_label.
    + intros l s Hin. apply elem_of_app in Hin as [Hin | Hin]; [by apply Hsig |].
      apply list_elem_of_singleton in Hin. injection Hin as -> ->. done.
Qed.

Lemma process_labels_invariant t labels done st :
  loop_invariant done st ->
  exists st', process_labels label_reader lut t labels st = Ok st' /\
              loop_invariant (done ++ labels) st'.
Proof.
  revert done st. induction labels as [| label rest IH]; intros done st Inv; cbn.
  - exists st. now rewrite app_nil_r.
  - destruct (process_label_invariant t label done st Inv) as (st1 & E1 & Inv1).
    rewrite E1. cbn.
    destruct (IH _ _ Inv1) as (st2 & E2 & Inv2).
    exists st2. split; [done |]. now rewrite <- app_assoc in Inv2.
Qed.

Lemma reconstruct_invariant renderer t :
  exists st,
    reconstruct label_reader lut renderer t = Ok st /\
    loop_invariant
      (seqZ 1 (Int_part (GetScalarRange (GetOutput label_reader)).2)) st.
Proof.
  unfold reconstruct.
  destruct (GetScalarRange (GetOutput label_reader)) as [scalar_min scalar_max].
  rewrite range_to_floor. cbn [snd].
  apply (process_labels_invariant t _ []).
  split; [done |]. split; [apply sublist_nil_l |]. split; [done |].
  intros l s H. by apply elem_of_nil in H.
Qed.

Lemma process_labels_app t l1 l2 st :
  process_labels label_reader lut t (l1 ++ l2) st
  = let* st1 := process_labels label_reader lut t l1 st in
    process_labels label_reader lut t l2 st1.
Proof.
  revert st. induction l1 as [| l rest IH]; intros st; cbn; [done |].
  destruct (process_label label_reader lut t l st); cbn; [apply IH | done].
Qed.




End Loop.

(** C6: the loop visits exactly the labels 1, ..., floor(M) in increasing
    order, M being the maximum of the scalar range (so never label 0 and
    never a label above floor(M)), and it always runs to completion; a
    label whose iso-surface has no points leaves the results untouched and
    the loop goes on to the next label. *)
Theorem labels_one_to_floor_max {filters : SurfaceFilters}
    label_reader lut renderer t :
  (exists st,
     reconstruct label_reader lut renderer t = Ok st /\
     contoured_labels st
     = seqZ 1 (Int_part (GetScalarRange (GetOutput label_reader)).2) /\
     (forall l, l ∈ contoured_labels st <->
        (1 <= l <= Int_part (GetScalarRange (GetOutput label_reader)).2)%Z) /\
     (forall (i : nat) l, contoured_labels st !! i = Some l -> l = (1 + Z.of_nat i)%Z)) /\
  (IZR (Int_part (GetScalarRange (GetOutput label_reader)).2)
   <= (GetScalarRange (GetOutput label_reader)).2
   < IZR (Int_part (GetScalarRange (GetOutput label_reader)).2) + 1) /\
  (forall label st,
     GetNumberOfPoints (contour label_reader label) = 0%nat ->
     exists st',
       process_label label_reader lut t label st = Ok st' /\
       contoured_labels st' = contoured_labels st ++ [label] /\
       processed_signatures st' = processed_signatures st /\
       segmentation_actors st' = segmentation_actors st /\
       st_renderer st' = st_renderer st).
Proof.
  split; [| split].
  - destruct (reconstruct_invariant label_reader lut renderer t)
      as (st & E & Hlog & _).
    exists st. split; [done |]. split; [done |]. split.
    + intros l. rewrite Hlog, elem_of_seqZ. lia.
    + intros i l. rewrite Hlog. intros H. by apply lookup_seqZ in H as [-> _].
  - destruct (base_Int_part (GetScalarRange (GetOutput label_reader)).2). lra.
  - intros label st. apply empty_surface_skipped.
Qed.

Lemma labels_one_to_floor_max_witness :
  (exists st,
     reconstruct (filters := sample_filters) sample_reader sample_lut
                 empty_renderer (9 / 10) = Ok st /\
     contoured_labels st = seqZ 1 (Int_part 3) /\
     (forall l, l ∈ contoured_labels st <-> (1 <= l <= Int_part 3)%Z) /\
     (forall (i : nat) l, contoured_labels st !! i = Some l -> l = (1 + Z.of_nat i)%Z)) /\
  (IZR (Int_part 3) <= 3 < IZR (Int_part 3) + 1) /\
  (forall label st,
     GetNumberOfPoints (contour (SurfaceFilters := sample_filters)
                                sample_reader label) = 0%nat ->
     exists st',
       process_label (filters := sample_filters) sample_reader sample_lut
                     (9 / 10) label st = Ok st' /\
       contoured_labels st' = contoured_labels st ++ [label] /\
       processed_signatures st' = processed_signatures st /\
       segmentation_actors st' = segmentation_actors st /\
       st_renderer st' = st_renderer st).
Proof.
  apply (labels_one_to_floor_max (filters := sample_filters)
           sample_reader sample_lut empty_renderer (9 / 10)).
Defined.



End SegmentationFacts.

(** ** The mode toggle *)

Module CallbackFacts.
Import Vtk Imaging Geometry Segmentation Callbacks Spec Examples.
Import GeometryFacts SegmentationFacts.
Local Open Scope R_scope.



(** A signature taken from a VTK surface has natural counts, the box
    volume as its volume, and, if it has points, a non-negative volume. *)
Lemma from_polydata_facts s :
  from_polydata s -> nonzero_metrics s ->
  (0 < num_points s)%Z /\ (0 < num_cells s)%Z /\ 0 < volume s /\
  box_signature s.
Proof.
  intros (pd & Hwf & ->) (Hp & Hc & Hv). cbn in *.
  split; [lia |]. split; [lia |]. split; [| done].
  destruct Hwf as (Hx & Hy & Hz); [lia |].
  assert (0 <= (b1 (GetBounds pd) - b0 (GetBounds pd))
               * (b3 (GetBounds pd) - b2 (GetBounds pd))
               * (b5 (GetBounds pd) - b4 (GetBounds pd))).
  { apply Rmult_le_pos; [apply Rmult_le_pos |]; lra. }
  lra.
Qed.


Section Toggle.
Context {filters : SurfaceFilters}.

(** Every actor the pipeline returns carries its label, so building the
    opacity sliders cannot fail. *)
Lemma add_segmentation_sliders_ok actors idx acc :
  Forall (fun a => is_Some (label_value a)) actors ->
  exists m, add_segmentation_sliders idx actors acc = Ok m.
Proof.
  intros H. revert idx acc.
  induction H as [| a rest [l Hl] _ IH]; intros idx acc; cbn; [by eauto |].
  rewrite Hl. destruct (_ =? _)%Z; apply IH.
Qed.




End Toggle.


End CallbackFacts.

(** ** More on the comparator *)

Module GeometryMore.
Import Geometry Spec Notions Examples GeometryFacts.
Local Open Scope R_scope.








Lemma quotient_le_1 m M :
  0 < M -> m <= M -> m / M <= 1 /\ (m / M >= 1 -> M <= m).
Proof.
  intros HM Hle.
  assert (E : m = m / M * M) by (field; lra).
  split.
  - destruct (Rle_lt_dec (m / M) 1) as [H | H]; [done |]. exfalso.
    assert (m / M * M > 1 * M) by (apply Rmult_gt_compat_r; lra). lra.
  - intros H.
    assert (m / M * M >= 1 * M) by (apply Rmult_ge_compat_r; lra). lra.
Qed.

Lemma ratio_of_counts_le_1 a b :
  (0 < a)%Z -> (0 < b)%Z ->
  ratio_of_counts a b <= 1 /\ (ratio_of_counts a b >= 1 -> a = b).
Proof.
  intros Ha Hb. unfold ratio_of_counts.
  assert (Hmax : 0 < IZR (Z.max a b)) by (apply IZR_lt; lia).
  assert (Hle : IZR (Z.min a b) <= IZR (Z.max a b)) by (apply IZR_le; lia).
  destruct (quotient_le_1 _ _ Hmax Hle) as [H1 H2].
  split; [done |]. intros H. apply H2, le_IZR in H. lia.
Qed.

Lemma ratio_of_volumes_le_1 a b :
  0 < a -> 0 < b ->
  ratio_of_volumes a b <= 1 /\ (ratio_of_volumes a b >= 1 -> a = b).
Proof.
  intros Ha Hb. unfold ratio_of_volumes.
  assert (Hmax : 0 < Rmax a b) by (unfold Rmax; destruct (Rle_dec a b); lra).
  assert (Hle : Rmin a b <= Rmax a b)
    by (unfold Rmin, Rmax; destruct (Rle_dec a b); lra).
  destruct (quotient_le_1 _ _ Hmax Hle) as [H1 H2].
  split; [done |]. intros H. apply H2 in H.
  revert H. unfold Rmin, Rmax. destruct (Rle_dec a b); lra.
Qed.

Lemma similar_true_inv s1 s2 t :
  are_polydata_similar s1 s2 t = Ok true ->
  nonzero_metrics s1 /\ nonzero_metrics s2 /\
  ratio_of_counts (num_points s1) (num_points s2) >= t /\
  ratio_of_counts (num_cells s1) (num_cells s2) >= t /\
  ratio_of_volumes (volume s1) (volume s2) >= t /\
  (mean_extent (bounds s1) (bounds s2) <> 0 ->
   spec_center_similarity (bounds s1) (bounds s2) >= 95 / 100).
Proof.
  rewrite are_polydata_similar_eq. intros [= H].
  rewrite !andb_true_iff, !Rgeb_true, !nonempty_true in H.
  destruct H as (((((N1 & N2) & P) & C) & V) & S).
  repeat (split; [done |]). intros M. apply Reqb_false in M.
  rewrite M in S. exact S.
Qed.

(** X3: for signatures of VTK surfaces, nothing is similar at a threshold
    above 1, and similarity at threshold 1.0 forces equal point counts,
    equal cell counts and equal volumes. *)
Theorem threshold_one_means_equal s1 s2 t :
  from_polydata s1 -> from_polydata s2 ->
  are_polydata_similar s1 s2 t = Ok true ->
  t <= 1 /\
  (t = 1 ->
   num_points s1 = num_points s2 /\ num_cells s1 = num_cells s2 /\
   volume s1 = volume s2).
Proof.
  intros F1 F2 H.
  destruct (similar_true_inv _ _ _ H) as (N1 & N2 & P & C & V & _).
  destruct (CallbackFacts.from_polydata_facts _ F1 N1) as (P1 & C1 & V1 & _).
  destruct (CallbackFacts.from_polydata_facts _ F2 N2) as (P2 & C2 & V2 & _).
  destruct (ratio_of_counts_le_1 _ _ P1 P2) as [HP HPe].
  destruct (ratio_of_counts_le_1 _ _ C1 C2) as [HC HCe].
  destruct (ratio_of_volumes_le_1 _ _ V1 V2) as [HV HVe].
  split; [lra |]. intros ->. auto.
Qed.

Lemma threshold_one_means_equal_witness :
  from_polydata unit_cube /\
  are_polydata_similar unit_cube unit_cube 1 = Ok true /\
  1 <= 1 /\
  (1 = 1 ->
   num_points unit_cube = num_points unit_cube /\
   num_cells unit_cube = num_cells unit_cube /\
   volume unit_cube = volume unit_cube).
Proof.
  assert (F : from_polydata unit_cube).
  { exists cube_surface. split.
    - intros _. unfold bounds_ordered. cbn. lra.
    - unfold unit_cube, calculate_polydata_signature. cbn. f_equal. ring. }
  assert (H : are_polydata_similar unit_cube unit_cube 1 = Ok true)
    by (apply similar_to_itself; [solve_metrics | lra]).
  split; [exact F |]. split; [exact H |].
  apply (threshold_one_means_equal unit_cube unit_cube 1 F F H).
Defined.






(** X6: the signature of a VTK surface that has points has a non-negative
    volume, which is zero exactly when the box is flat along some axis; such
    a flat surface is similar to nothing, itself included. *)
Theorem flat_surface_is_never_similar pd other t :
  polydata_wf pd -> GetNumberOfPoints pd <> 0%nat ->
  0 <= volume (calculate_polydata_signature pd) /\
  (volume (calculate_polydata_signature pd) = 0 <->
   b1 (GetBounds pd) = b0 (GetBounds pd) \/
   b3 (GetBounds pd) = b2 (GetBounds pd) \/
   b5 (GetBounds pd) = b4 (GetBounds pd)) /\
  (volume (calculate_polydata_signature pd) = 0 ->
   are_polydata_similar (calculate_polydata_signature pd) other t = Ok false /\
   are_polydata_similar other (calculate_polydata_signature pd) t = Ok false /\
   are_polydata_similar (calculate_polydata_signature pd)
                        (calculate_polydata_signature pd) t = Ok false).
Proof.
  intros Hwf Hn. destruct (Hwf Hn) as (Hx & Hy & Hz). cbn [volume
    calculate_polydata_signature].
  split; [| split].
  - apply Rmult_le_pos; [apply Rmult_le_pos |]; lra.
  - split.
    + intros H. apply Rmult_integral in H as [H | H];
        [apply Rmult_integral in H as [H | H] |]; lra.
    + intros [H | [H | H]]; rewrite H; ring.
  - intros H.
    assert (Z : zero_metric (calculate_polydata_signature pd))
      by (right; right; exact H).
    destruct (zero_metric_not_similar _ other t Z) as [H1 H2].
    destruct (zero_metric_not_similar _ (calculate_polydata_signature pd) t Z)
      as [H3 _].
    auto.
Qed.

Lemma flat_surface_is_never_similar_witness :
  polydata_wf flat_surface /\ GetNumberOfPoints flat_surface <> 0%nat /\
  volume (calculate_polydata_signature flat_surface) = 0 /\
  are_polydata_similar (calculate_polydata_signature flat_surface)
                       unit_cube (1 / 2) = Ok false.
Proof.
  assert (W : polydata_wf flat_surface)
    by (intros _; unfold bounds_ordered; cbn; lra).
  assert (N : GetNumberOfPoints flat_surface <> 0%nat) by (cbn; lia).
  assert (V : volume (calculate_polydata_signature flat_surface) = 0)
    by (cbn; ring).
  split; [exact W |]. split; [exact N |]. split; [exact V |].
  destruct (flat_surface_is_never_similar flat_surface unit_cube (1 / 2) W N)
    as (_ & _ & H).
  exact (proj1 (H V)).
Defined.

(** X7: a surface with nonzero metrics counts as a duplicate of itself
    exactly at the thresholds up to 1. *)
Theorem self_similar_iff s t :
  nonzero_metrics s ->
  are_polydata_similar s s t = Ok true <-> t <= 1.
Proof.
  intros N. split; [| now apply similar_to_itself].
  intros H. destruct (similar_true_inv _ _ _ H) as (_ & _ & P & _).
  rewrite ratio_of_counts_same in P by apply N. lra.
Qed.

Lemma self_similar_iff_witness :
  nonzero_metrics unit_cube /\
  (are_polydata_similar unit_cube unit_cube (11 / 10) = Ok true
   <-> 11 / 10 <= 1).
Proof.
  split; [solve_metrics |].
  apply (self_similar_iff unit_cube (11 / 10)). solve_metrics.
Defined.

End GeometryMore.

(** ** More on the orientation table *)

Module TransformMore.
Import Vtk Transforms Main Spec Notions TransformFacts.
Local Open Scope R_scope.

Ltac point_eq := TransformFacts.point_eq.

(** Where each stored transform sends a point. *)
Lemma table_actions x y z :
  TransformPoint si_trans (x, y, z) = (x, z, - y) /\
  TransformPoint is_trans (x, y, z) = (x, - z, - y) /\
  TransformPoint ap_trans (x, y, z) = (x, - y, z) /\
  TransformPoint pa_trans (x, y, z) = (x, - y, - z) /\
  TransformPoint lr_trans (x, y, z) = (- z, - y, x) /\
  TransformPoint rl_trans (x, y, z) = (z, - y, x) /\
  TransformPoint hf_trans (x, y, z) = (- x, y, - z) /\
  TransformPoint new_vtkTransform (x, y, z) = (x, y, z) /\
  TransformPoint z_trans (x, y, z) = (0, 0, 0) /\
  TransformPoint hf_si_trans (x, y, z) = (- x, z, y) /\
  TransformPoint hf_is_trans (x, y, z) = (- x, - z, y) /\
  TransformPoint hf_ap_trans (x, y, z) = (- x, - y, - z) /\
  TransformPoint hf_pa_trans (x, y, z) = (- x, - y, z) /\
  TransformPoint hf_lr_trans (x, y, z) = (z, - y, - x) /\
  TransformPoint hf_rl_trans (x, y, z) = (- z, - y, - x).
Proof. repeat split; point_eq. Qed.

(** Case analysis over the entries of the table. *)
Lemma table_cases (P : string -> vtkTransform -> Prop) :
  P "si" si_trans -> P "is" is_trans -> P "ap" ap_trans -> P "pa" pa_trans ->
  P "lr" lr_trans -> P "rl" rl_trans -> P "hf" hf_trans ->
  P "I" new_vtkTransform -> P "Z" z_trans ->
  P "hfsi" hf_si_trans -> P "hfis" hf_is_trans -> P "hfap" hf_ap_trans ->
  P "hfpa" hf_pa_trans -> P "hflr" hf_lr_trans -> P "hfrl" hf_rl_trans ->
  forall order t, get SliceOrder_init order = Ok t -> P order t.
Proof.
  intros H1 H2 H3 H4 H5 H6 H7 H8 H9 H10 H11 H12 H13 H14 H15 order t H.
  assert (Hin : order ∈ orientation_codes).
  { destruct (decide (order ∈ orientation_codes)) as [Hin | Hout]; [done |].
    unfold get in H. now rewrite lookup_unknown in H. }
  unfold orientation_codes in Hin. unfold get, SliceOrder_init in H.
  cbn [transform] in H.
  repeat (apply elem_of_cons in Hin as [-> | Hin];
          [repeat (rewrite lookup_insert_ne in H by discriminate);
           rewrite lookup_insert_eq in H; injection H as <-; assumption |]).
  by apply elem_of_nil in Hin.
Qed.

(** X8: every transform of the table except "Z" keeps the distance of a
    point from the origin; "Z" sends every point to the origin and "I"
    moves nothing. *)
Theorem table_transforms_keep_norm order t :
  get SliceOrder_init order = Ok t ->
  (order <> "Z" -> forall p, norm2 (TransformPoint t p) = norm2 p) /\
  (order = "Z" -> forall p, TransformPoint t p = (0, 0, 0)) /\
  (order = "I" -> forall p, TransformPoint t p = p).
Proof.
  revert order t.
  apply table_cases;
    (split; [intros Hne [[x y] z] | split; intros He [[x y] z]]);
    try discriminate; try done;
    destruct (table_actions x y z)
      as (A1 & A2 & A3 & A4 & A5 & A6 & A7 & A8 & A9 & A10 & A11 & A12 & A13
          & A14 & A15);
    rewrite ?A1, ?A2, ?A3, ?A4, ?A5, ?A6, ?A7, ?A8, ?A9, ?A10, ?A11, ?A12,
      ?A13, ?A14, ?A15; try done; unfold norm2; ring.
Qed.

Lemma table_transforms_keep_norm_witness :
  get SliceOrder_init "hflr" = Ok hf_lr_trans /\
  ("hflr" <> "Z" ->
   forall p, norm2 (TransformPoint hf_lr_trans p) = norm2 p).
Proof.
  split; [reflexivity |].
  exact (proj1 (table_transforms_keep_norm "hflr" hf_lr_trans eq_refl)).
Defined.

Lemma row4_inv (r : list R) :
  length r = 4%nat -> exists a b c d, r = [a; b; c; d].
Proof.
  destruct r as [| a [| b [| c [| d [| ? ?]]]]]; try discriminate. eauto.
Qed.

(** In pre-multiply mode a scale added to any transform acts on the point
    before the transform does. *)
Lemma Scale_acts_first t a b c x y z :
  is_4x4 (GetMatrix t) ->
  TransformPoint (Scale a b c t) (x, y, z)
  = TransformPoint t (a * x, b * y, c * z).
Proof.
  destruct t as [m]. cbn [GetMatrix]. intros [L F].
  destruct m as [| r0 [| r1 [| r2 [| r3 [| ? ?]]]]]; try discriminate.
  apply Forall_cons in F as [L0 F]. apply Forall_cons in F as [L1 F].
  apply Forall_cons in F as [L2 F]. apply Forall_cons in F as [L3 _].
  destruct (row4_inv _ L0) as (? & ? & ? & ? & ->).
  destruct (row4_inv _ L1) as (? & ? & ? & ? & ->).
  destruct (row4_inv _ L2) as (? & ? & ? & ? & ->).
  destruct (row4_inv _ L3) as (? & ? & ? & ? & ->).
  point_eq.
Qed.

Lemma table_matrices_4x4 order t :
  get SliceOrder_init order = Ok t -> is_4x4 (GetMatrix t).
Proof.
  revert order t. apply table_cases; split; cbn; repeat constructor.
Qed.

(** X9: the transform the tissue loop applies flips y and z first and
    applies the table's transform second; an orientation code outside the
    table stops the loop with the table's exception. *)
Theorem tissue_transform_flips_first order :
  (forall t, get SliceOrder_init order = Ok t ->
     exists t', tissue_transform order = Ok t' /\
       forall x y z,
         TransformPoint t' (x, y, z) = TransformPoint t (x, - y, - z)) /\
  (order ∉ orientation_codes -> raises (tissue_transform order)).
Proof.
  split.
  - intros t H. unfold tissue_transform. rewrite H. cbn [bind].
    eexists. split; [reflexivity |]. intros x y z.
    rewrite Scale_acts_first by (eapply table_matrices_4x4; exact H).
    do 2 f_equal; [f_equal |]; ring.
  - intros H. unfold tissue_transform, get. now rewrite lookup_unknown.
Qed.

Lemma tissue_transform_flips_first_witness :
  get SliceOrder_init "hfsi" = Ok hf_si_trans /\
  exists t', tissue_transform "hfsi" = Ok t' /\
    forall x y z,
      TransformPoint t' (x, y, z) = TransformPoint hf_si_trans (x, - y, - z).
Proof.
  split; [reflexivity |].
  exact (proj1 (tissue_transform_flips_first "hfsi") hf_si_trans eq_refl).
Defined.

End TransformMore.

(** ** More on slice planes *)

Module SliceMore.
Import Vtk Imaging SliceUtils Callbacks Main Spec Notions Examples MoreExamples.
Import NumFacts SliceFacts.
Local Open Scope R_scope.

#[local] Opaque Translate RotateX RotateY RotateZ Scale new_vtkTransform.



(** X11: an orientation other than "XY", "XZ" and "YZ" is not rejected:
    the plane is built with the reslice filter's initial axes, origin
    (0, 0, 0) and the bare scale(1,-1,-1) as placement, whatever the slice
    number. *)
Theorem unknown_orientation_is_accepted reader label_reader orientation s lut :
  orientation <> "XY" -> orientation <> "XZ" -> orientation <> "YZ" ->
  exists sp,
    create_slice_plane reader label_reader orientation s lut = Ok sp /\
    ResliceAxesDirectionCosines (reslice sp) = [1; 0; 0; 0; 1; 0; 0; 0; 1]%Z /\
    ResliceAxesOrigin (reslice sp) = (0, 0, 0) /\
    plane_transform sp = Scale 1 (-1) (-1) new_vtkTransform /\
    plane_orientation sp = orientation.
Proof.
  intros H1 H2 H3. apply String.eqb_neq in H1, H2, H3.
  unfold create_slice_plane.
  destruct (GetSpacing (GetOutput reader)) as [[sx sy] sz].
  destruct (GetDimensions (GetOutput reader)) as [[dx dy] dz].
  rewrite H1, H2, H3. eexists. split; [reflexivity |]. cbn. auto.
Qed.

Lemma unknown_orientation_is_accepted_witness :
  "ZY" <> "XY" /\ "ZY" <> "XZ" /\ "ZY" <> "YZ" /\
  exists sp,
    create_slice_plane sample_reader None "ZY" 7 sample_lut = Ok sp /\
    ResliceAxesDirectionCosines (reslice sp) = [1; 0; 0; 0; 1; 0; 0; 0; 1]%Z /\
    ResliceAxesOrigin (reslice sp) = (0, 0, 0) /\
    plane_transform sp = Scale 1 (-1) (-1) new_vtkTransform /\
    plane_orientation sp = "ZY".
Proof.
  do 3 (split; [discriminate |]).
  apply (unknown_orientation_is_accepted sample_reader None "ZY" 7 sample_lut);
    discriminate.
Defined.

(** X12: the slider callback keeps no history: two calls in a row leave
    the callback, its transform and its actors exactly as the second call
    alone does. *)
Theorem callback_keeps_no_history self v1 v2 :
  exists self1 self2,
    SlicePlaneCallback_call self v1 = Ok self1 /\
    SlicePlaneCallback_call self1 v2 = Ok self2 /\
    SlicePlaneCallback_call self v2 = Ok self2.
Proof.
  unfold SlicePlaneCallback_call.
  destruct self as [reader lr gray labels o tr lut [[sx sy] sz] orig
                      [[dx dy] dz]].
  cbn [sp_reader sp_label_reader image_actor_gray image_actor_labels
       sp_orientation sp_transform sp_lut sp_spacing sp_origin sp_dims].
  destruct lr as [lr |], labels as [labels |];
    (destruct (String.eqb o "XY") eqn:E1;
     [| destruct (String.eqb o "XZ") eqn:E2;
        [| destruct (String.eqb o "YZ") eqn:E3]]);
    do 2 eexists; (split; [reflexivity |]);
    cbn [sp_reader sp_label_reader image_actor_gray image_actor_labels
         sp_orientation sp_transform sp_lut sp_spacing sp_origin sp_dims];
    rewrite ?E1, ?E2, ?E3; split; reflexivity.
Qed.

(** X13: a callback set up on the results of [create_slice_plane] and then
    moved to slice [s] shows what [create_slice_plane] builds for [s]: the
    same placement, the same grayscale raster and, when labels are shown,
    the same coloured label raster. *)
Theorem callback_agrees_with_constructor reader label_reader orientation
    s0 s lut :
  exists sp0 sp self',
    create_slice_plane reader label_reader orientation s0 lut = Ok sp0 /\
    create_slice_plane reader label_reader orientation s lut = Ok sp /\
    SlicePlaneCallback_call
      (SlicePlaneCallback_init reader label_reader (actor_gray sp0)
         (actor_labels sp0) orientation (plane_transform sp0) lut)
      (IZR s) = Ok self' /\
    sp_transform self' = plane_transform sp /\
    MapperInput (image_actor_gray self') = MapperInput (actor_gray sp) /\
    MapperInput <$> image_actor_labels self'
    = MapperInput <$> actor_labels sp /\
    current_reslice self' = Some (reslice sp).
Proof.
  unfold SlicePlaneCallback_call, SlicePlaneCallback_init, create_slice_plane,
    current_reslice.
  cbn [sp_reader sp_label_reader image_actor_gray image_actor_labels
       sp_orientation sp_transform sp_lut sp_spacing sp_origin sp_dims].
  rewrite py_int_IZR.
  destruct (GetSpacing (GetOutput reader)) as [[sx sy] sz].
  destruct (GetDimensions (GetOutput reader)) as [[dx dy] dz].
  destruct label_reader as [lr |];
    (destruct (String.eqb orientation "XY");
     [| destruct (String.eqb orientation "XZ");
        [| destruct (String.eqb orientation "YZ")]]);
    do 3 eexists; do 3 (split; [reflexivity |]); cbn; unfold Identity;
    auto.
Qed.

(** [int(x)] stays between the integers that bound [x]. *)
Lemma py_int_between a b x :
  IZR a <= x <= IZR b -> (a <= py_int x <= b)%Z.
Proof.
  intros [Ha Hb]. unfold py_int, Rgeb.
  destruct (Rge_dec x 0) as [Hx | Hx].
  - destruct (base_Int_part x) as [H1 H2].
    assert (L : IZR a < IZR (Int_part x + 1)) by (rewrite plus_IZR; lra).
    assert (U : IZR (Int_part x) <= IZR b) by lra.
    apply lt_IZR in L. apply le_IZR in U. lia.
  - destruct (base_Int_part (- x)) as [H1 H2].
    assert (L : IZR (- b) < IZR (Int_part (- x) + 1))
      by (rewrite plus_IZR, opp_IZR; lra).
    assert (U : IZR (Int_part (- x)) <= IZR (- a))
      by (rewrite opp_IZR; lra).
    apply lt_IZR in L. apply le_IZR in U. lia.
Qed.

(** X14: the three planes the application builds first.  The coronal
    plane is always cut at absolute index 0, the first slice of the volume;
    the sagittal plane at index 0 when the volume has an even number of
    voxels along x and at index -1, outside the volume, when the number is
    odd; the axial plane 50 slices below the middle. *)
Theorem initial_planes reader label_reader lut sx sy sz d0 d1 d2 :
  GetSpacing (GetOutput reader) = (sx, sy, sz) ->
  GetDimensions (GetOutput reader) = (d0, d1, d2) ->
  exists xy xz yz,
    create_initial_slice_planes reader label_reader lut = Ok (xy, xz, yz) /\
    ResliceAxesOrigin (reslice xy) = (0, 0, IZR (d2 `div` 2 - 50) * sz) /\
    ResliceAxesOrigin (reslice xz) = (0, 0, 0) /\
    ResliceAxesOrigin (reslice yz) = (IZR (- (d0 `mod` 2)) * sx, 0, 0).
Proof.
  intros Hs Hd. unfold create_initial_slice_planes. rewrite Hd.
  destruct (create_slice_plane_table Axial reader label_reader lut (-50))
    as (xy & Exy & _ & Oxy & _).
  destruct (create_slice_plane_table Coronal reader label_reader lut
              (d1 `div` 2)) as (xz & Exz & _ & Oxz & _).
  destruct (create_slice_plane_table Sagittal reader label_reader lut
              ((- d0) `div` 2)) as (yz & Eyz & _ & Oyz & _).
  cbn [plane_code] in Exy, Exz, Eyz. rewrite Exy, Exz, Eyz. cbn [bind].
  exists xy, xz, yz. split; [done |].
  rewrite Oxy, Oxz, Oyz, Hs, Hd.
  unfold reslice_origin, physical_coordinate, absolute_index,
    spacing_component.
  replace (- (d1 `div` 2) + d1 `div` 2)%Z with 0%Z by lia.
  replace ((- d0) `div` 2 + d0 `div` 2)%Z with (- (d0 `mod` 2))%Z.
  2:{ pose proof (Z.div_mod d0 2). pose proof (Z.div_mod (- d0) 2).
      pose proof (Z.mod_pos_bound d0 2). pose proof (Z.mod_pos_bound (- d0) 2).
      lia. }
  replace (-50 + d2 `div` 2)%Z with (d2 `div` 2 - 50)%Z by lia.
  rewrite Rmult_0_l. auto.
Qed.

Lemma initial_planes_witness :
  GetSpacing (GetOutput odd_reader) = (1 / 2, 1 / 2, 2) /\
  GetDimensions (GetOutput odd_reader) = (101%Z, 100%Z, 60%Z) /\
  exists xy xz yz,
    create_initial_slice_planes odd_reader None sample_lut = Ok (xy, xz, yz) /\
    ResliceAxesOrigin (reslice xy) = (0, 0, IZR (60 `div` 2 - 50) * 2) /\
    ResliceAxesOrigin (reslice xz) = (0, 0, 0) /\
    ResliceAxesOrigin (reslice yz) = (IZR (- (101 `mod` 2)) * (1 / 2), 0, 0).
Proof.
  do 2 (split; [reflexivity |]).
  exact (initial_planes odd_reader None sample_lut _ _ _ _ _ _
                        eq_refl eq_refl).
Defined.

(** X15: what the position sliders of the application can reach.  For a
    slider value within the range the application gives the slider of a
    plane, the callback cuts the volume at the absolute index
    [k = absolute_index (int value)], and [d div 2 - d <= k <= top], [d]
    being the number of voxels along the plane's normal and [top] being
    [d div 2] for the coronal and sagittal planes and [2 * (d div 2)] for
    the axial plane.  So the coronal and sagittal sliders never show a
    slice above the middle one, and the lower half of each slider's travel
    addresses indices below 0. *)
Theorem slider_reach p reader label_reader gray labels tr lut v :
  let dims := GetDimensions (GetOutput reader) in
  IZR (min_val (slider_of_plane p dims)) <= v
  <= IZR (max_val (slider_of_plane p dims)) ->
  exists self' r k,
    SlicePlaneCallback_call
      (SlicePlaneCallback_init reader label_reader gray labels
                               (plane_code p) tr lut) v = Ok self' /\
    current_reslice self' = Some r /\
    k = absolute_index p (py_int v) dims /\
    ResliceAxesOrigin r
    = reslice_origin p (IZR k * spacing_component p
                                  (GetSpacing (GetOutput reader))) /\
    (dim_component p dims `div` 2 - dim_component p dims <= k
     <= top_index p dims)%Z.
Proof.
  intros dims Hv. subst dims.
  unfold SlicePlaneCallback_call, SlicePlaneCallback_init, current_reslice.
  cbn [sp_reader sp_label_reader image_actor_gray image_actor_labels
       sp_orientation sp_transform sp_lut sp_spacing sp_origin sp_dims].
  destruct (GetSpacing (GetOutput reader)) as [[sx sy] sz].
  destruct (GetDimensions (GetOutput reader)) as [[dx dy] dz].
  destruct p; cbn in Hv; apply py_int_between in Hv;
    cbn; do 3 eexists; (split; [reflexivity |]); cbn;
    (split; [reflexivity |]); (split; [reflexivity |]);
    (split; [reflexivity |]); lia.
Qed.

Lemma slider_reach_witness :
  IZR (min_val (slider_of_plane Coronal
                  (GetDimensions (GetOutput sample_reader)))) <= 100
  <= IZR (max_val (slider_of_plane Coronal
                     (GetDimensions (GetOutput sample_reader)))) /\
  exists self' r k,
    SlicePlaneCallback_call
      (SlicePlaneCallback_init sample_reader None new_vtkImageActor None
                               "XZ" new_vtkTransform sample_lut) 100
    = Ok self' /\
    current_reslice self' = Some r /\
    k = absolute_index Coronal (py_int 100)
                       (GetDimensions (GetOutput sample_reader)) /\
    ResliceAxesOrigin r
    = reslice_origin Coronal
        (IZR k * spacing_component Coronal
                   (GetSpacing (GetOutput sample_reader))) /\
    (dim_component Coronal (GetDimensions (GetOutput sample_reader)) `div` 2
     - dim_component Coronal (GetDimensions (GetOutput sample_reader)) <= k
     <= top_index Coronal (GetDimensions (GetOutput sample_reader)))%Z.
Proof.
  assert (H : IZR (min_val (slider_of_plane Coronal
                      (GetDimensions (GetOutput sample_reader)))) <= 100
              <= IZR (max_val (slider_of_plane Coronal
                         (GetDimensions (GetOutput sample_reader)))))
    by (cbn; lra).
  split; [exact H |].
  exact (slider_reach Coronal sample_reader None new_vtkImageActor None
                      new_vtkTransform sample_lut 100 H).
Defined.

End SliceMore.

(** ** More on the reconstruction loop *)

Module SegmentationMore.
Import Vtk Imaging Geometry Segmentation Spec Notions Examples MoreExamples.
Import NumFacts GeometryFacts SegmentationFacts.
Local Open Scope R_scope.

Lemma filter_twice {A} (P : A -> Prop) `{forall x, Decision (P x)} (l : list A) :
  filter P (filter P l) = filter P l.
Proof.
  induction l as [| a l IH]; [done |].
  rewrite filter_cons. destruct (decide (P a)); [| done].
  rewrite filter_cons_True by done. now rewrite IH.
Qed.

Lemma filter_none {A} (P : A -> Prop) `{forall x, Decision (P x)} (l : list A) :
  Forall (fun a => ~ P a) l -> filter P l = [].
Proof.
  induction 1 as [| a l Ha _ IH]; [done |].
  now rewrite filter_cons_False.
Qed.

Section Scene.
Context {filters : SurfaceFilters}.
Variables (label_reader : vtkNrrdReader) (lut : vtkLookupTable).

#[local] Abbreviation made := (fun a : vtkActor =>
  exists l, a = make_actor (smoothed_surface label_reader l) lut l).

(** What [make_actor] fixes on every actor. *)
Lemma make_actor_facts pd l :
  is_segmentation_3d (make_actor pd lut l) = true /\
  Visibility (make_actor pd lut l) = true /\
  Representation (make_actor pd lut l) = Surface /\
  Opacity (make_actor pd lut l) = 9 / 10 /\
  label_value (make_actor pd lut l) = Some l /\
  Color (make_actor pd lut l) = (lut l).1.
Proof.
  unfold make_actor. destruct (lut l) as [[[r g] b] a]. cbn. auto 10.
Qed.

(** The duplicate check says no exactly when no recorded signature is
    similar. *)
Lemma is_duplicate_false cur processed t :
  is_duplicate cur processed t = Ok false <->
  forall l prev, (l, prev) ∈ processed ->
                 are_polydata_similar cur prev t = Ok false.
Proof.
  destruct (is_duplicate_spec cur processed t) as (b & Hb & Hiff).
  rewrite Hb. split.
  - intros [= ->] l prev Hin.
    destruct (are_polydata_similar_total cur prev t) as [[|] E]; [| done].
    assert (false = true) by (apply Hiff; eauto). done.
  - intros Hall. destruct b; [| done].
    destruct (proj1 Hiff eq_refl) as (l & prev & Hin & E).
    rewrite (Hall _ _ Hin) in E. done.
Qed.

(** One iteration adds its actors to the end of the scene, whatever the
    scene holds; the actors and signatures it yields do not depend on the
    scene. *)
Lemma process_label_scene t label acts sigs log :
  exists new sigs' log',
    Forall made new /\
    forall R,
      process_label label_reader lut t label
        {| st_renderer := R; segmentation_actors := acts;
           processed_signatures := sigs; contoured_labels := log |}
      = Ok {| st_renderer :=
                {| GetActors := GetActors R ++ new;
                   clipping_range_resets := clipping_range_resets R |};
              segmentation_actors := acts ++ new;
              processed_signatures := sigs'; contoured_labels := log' |}.
Proof.
  unfold process_label. cbn.
  destruct (GetNumberOfPoints (contour label_reader label) =? 0)%nat.
  - exists [], sigs, (log ++ [label]). split; [done |].
    intros [ga c]. cbn. now rewrite !app_nil_r.
  - destruct (is_duplicate_spec
                (calculate_polydata_signature
                   (smooth 20 (1 / 10) false true (contour label_reader label)))
                sigs t) as ([|] & Hb & _); rewrite Hb; cbn.
    + exists [], sigs, (log ++ [label]). split; [done |].
      intros [ga c]. cbn. now rewrite !app_nil_r.
    + eexists [_], _, _. split; [| reflexivity].
      constructor; [| done]. by exists label.
Qed.

Lemma process_labels_scene t labels acts sigs log :
  exists new sigs' log',
    Forall made new /\
    forall R,
      process_labels label_reader lut t labels
        {| st_renderer := R; segmentation_actors := acts;
           processed_signatures := sigs; contoured_labels := log |}
      = Ok {| st_renderer :=
                {| GetActors := GetActors R ++ new;
                   clipping_range_resets := clipping_range_resets R |};
              segmentation_actors := acts ++ new;
              processed_signatures := sigs'; contoured_labels := log' |}.
Proof.
  revert acts sigs log.
  induction labels as [| label rest IH]; intros acts sigs log.
  - exists [], sigs, log. split; [done |].
    intros [ga c]. cbn. now rewrite !app_nil_r.
  - destruct (process_label_scene t label acts sigs log)
      as (new1 & sigs1 & log1 & F1 & E1).
    destruct (IH (acts ++ new1) sigs1 log1) as (new2 & sigs2 & log2 & F2 & E2).
    exists (new1 ++ new2), sigs2, log2. split; [by apply Forall_app |].
    intros R. cbn [process_labels]. rewrite E1. cbn [bind]. rewrite E2. cbn.
    now rewrite !app_assoc.
Qed.

(** The surfaces a run produces depend on the label volume, the colour
    table and the threshold only; the scene receives them after the actors
    it held that are no reconstructed surfaces. *)
Lemma model_scene t :
  exists new,
    Forall made new /\
    forall renderer m,
      create_segmentation_3d_model label_reader lut renderer m t
      = Ok ({| GetActors := other_actors renderer ++ new;
               clipping_range_resets := S (clipping_range_resets renderer) |},
            new).
Proof.
  unfold create_segmentation_3d_model, reconstruct.
  destruct (GetScalarRange (GetOutput label_reader)) as [lo hi].
  destruct (process_labels_scene t (py_range 1 (py_int hi + 1)) [] [] [])
    as (new & sigs & log & F & E).
  exists new. split; [done |]. intros renderer m. now rewrite E.
Qed.

Lemma made_not_other new :
  Forall made new ->
  Forall (fun a => ~ is_segmentation_3d a = false) new.
Proof.
  intros F. eapply Forall_impl; [exact F |]. intros a [l ->].
  destruct (make_actor_facts (smoothed_surface label_reader l) l) as [H _].
  rewrite H. done.
Qed.

(** What the loop guarantees of its record of survivors, by position in
    the list of labels. *)
Lemma process_labels_survivors t labels st0 :
  processed_signatures st0 = [] ->
  exists st,
    process_labels label_reader lut t labels st0 = Ok st /\
    (forall l s, (l, s) ∈ processed_signatures st ->
       s = signature_of label_reader l /\ exists i, labels !! i = Some l) /\
    (forall i l, labels !! i = Some l ->
       GetNumberOfPoints (contour label_reader l) <> 0%nat ->
       (l, signature_of label_reader l) ∈ processed_signatures st \/
       exists i' l',
         (i' < i)%nat /\ labels !! i' = Some l' /\
         (l', signature_of label_reader l') ∈ processed_signatures st /\
         are_polydata_similar (signature_of label_reader l)
                              (signature_of label_reader l') t = Ok true) /\
    (forall i j ei ej, (i < j)%nat ->
       processed_signatures st !! i = Some ei ->
       processed_signatures st !! j = Some ej ->
       are_polydata_similar ej.2 ei.2 t = Ok false /\
       exists a b, (a < b)%nat /\ labels !! a = Some ei.1 /\
                   labels !! b = Some ej.1).
Proof.
  intros H0. induction labels as [| x labels IH] using rev_ind.
  - exists st0. split; [done |]. rewrite H0. split; [| split].
    + intros l s H. by apply elem_of_nil in H.
    + intros i l H. done.
    + intros i j ei ej _ H. done.
  - destruct IH as (st1 & E1 & Hent & Hrep & Hpair).
    rewrite process_labels_app, E1. cbn [bind process_labels].
    destruct (process_label_cases label_reader lut t x st1)
      as (st2 & E2 & _ & [(Hp & _ & _ & Hwhy) | (Hp & _ & Hn & Hdup)]);
      rewrite E2; cbn [bind]; exists st2; (split; [done |]); rewrite Hp.
    + split; [| split].
      * intros l s Hin. destruct (Hent l s Hin) as (Hs & i & Hi).
        split; [done |]. exists i. by apply lookup_app_l_Some.
      * intros i l Hi Hpts.
        apply lookup_snoc_Some in Hi as [[Hlt Hi] | [-> <-]].
        -- destruct (Hrep i l Hi Hpts) as [H | (i' & l' & Hl & Hi' & Hin & Hs)];
             [by left |].
           right. exists i', l'. split; [done |].
           split; [by apply lookup_app_l_Some | done].
        -- destruct Hwhy as [Hz | Hd]; [done |]. right.
           destruct (is_duplicate_spec (signature_of label_reader x)
                       (processed_signatures st1) t) as (b & Hb & Hiff).
           unfold Spec.signature_of in *. rewrite Hd in Hb.
           injection Hb as <-.
           destruct (proj1 Hiff eq_refl) as (l' & prev & Hin & Hs).
           destruct (Hent l' prev Hin) as (-> & i' & Hi').
           exists i', l'. split; [by eapply lookup_lt_Some |].
           split; [by apply lookup_app_l_Some | done].
      * intros i j ei ej Hij Hi Hj.
        destruct (Hpair i j ei ej Hij Hi Hj) as (Hs & a & b & Hab & Ha & Hb).
        split; [done |]. exists a, b. split; [done |].
        split; by apply lookup_app_l_Some.
    + split; [| split].
      * intros l s Hin. apply elem_of_app in Hin as [Hin | Hin].
        -- destruct (Hent l s Hin) as (Hs & i & Hi).
           split; [done |]. exists i. by apply lookup_app_l_Some.
        -- apply list_elem_of_singleton in Hin. injection Hin as -> ->.
           split; [done |]. exists (length labels). by apply list_lookup_middle.
      * intros i l Hi Hpts.
        apply lookup_snoc_Some in Hi as [[Hlt Hi] | [-> <-]].
        -- destruct (Hrep i l Hi Hpts) as [H | (i' & l' & Hl & Hi' & Hin & Hs)].
           ++ left. apply elem_of_app. by left.
           ++ right. exists i', l'. split; [done |].
              split; [by apply lookup_app_l_Some |].
              split; [apply elem_of_app; by left | done].
        -- left. apply elem_of_app. right. by apply list_elem_of_singleton.
      * intros i j ei ej Hij Hi Hj.
        apply lookup_snoc_Some in Hj as [[Hlt Hj] | [-> <-]].
        -- rewrite lookup_app_l in Hi by lia.
           destruct (Hpair i j ei ej Hij Hi Hj) as (Hs & a & b & Hab & Ha & Hb).
           split; [done |]. exists a, b. split; [done |].
           split; by apply lookup_app_l_Some.
        -- rewrite lookup_app_l in Hi by lia.
           apply list_elem_of_lookup_2 in Hi. destruct ei as [li si]. cbn.
           split.
           ++ by apply (proj1 (is_duplicate_false _ _ _) Hdup li si).
           ++ destruct (Hent li si Hi) as (_ & a & Ha).
              exists a, (length labels). split; [by eapply lookup_lt_Some |].
              split; [by apply lookup_app_l_Some | by apply list_lookup_middle].
Qed.

Lemma reconstruct_survivors renderer t :
  exists st,
    reconstruct label_reader lut renderer t = Ok st /\
    (forall l s, (l, s) ∈ processed_signatures st ->
       s = signature_of label_reader l /\
       (1 <= l <= Int_part (GetScalarRange (GetOutput label_reader)).2)%Z) /\
    (forall l,
       (1 <= l <= Int_part (GetScalarRange (GetOutput label_reader)).2)%Z ->
       GetNumberOfPoints (contour label_reader l) <> 0%nat ->
       (l, signature_of label_reader l) ∈ processed_signatures st \/
       exists l',
         (1 <= l' < l)%Z /\
         (l', signature_of label_reader l') ∈ processed_signatures st /\
         are_polydata_similar (signature_of label_reader l)
                              (signature_of label_reader l') t = Ok true) /\
    (forall i j ei ej, (i < j)%nat ->
       processed_signatures st !! i = Some ei ->
       processed_signatures st !! j = Some ej ->
       (ei.1 < ej.1)%Z /\
       are_polydata_similar ej.2 ei.2 t = Ok false).
Proof.
  unfold reconstruct.
  destruct (GetScalarRange (GetOutput label_reader)) as [lo hi].
  rewrite range_to_floor. cbn [snd].
  match goal with
  | |- context [process_labels _ _ _ _ ?s] =>
      destruct (process_labels_survivors t (seqZ 1 (Int_part hi)) s eq_refl)
        as (st & E & Hent & Hrep & Hpair)
  end.
  exists st. split; [done |]. split; [| split].
  - intros l s Hin. destruct (Hent l s Hin) as (Hs & i & Hi).
    split; [done |]. apply lookup_seqZ in Hi. lia.
  - intros l Hl Hpts.
    assert (Hi : seqZ 1 (Int_part hi) !! Z.to_nat (l - 1) = Some l)
      by (apply lookup_seqZ; lia).
    destruct (Hrep _ l Hi Hpts) as [H | (i' & l' & Hlt & Hi' & Hin & Hs)];
      [by left |].
    right. exists l'. apply lookup_seqZ in Hi'. split; [lia | done].
  - intros i j ei ej Hij Hi Hj.
    destruct (Hpair i j ei ej Hij Hi Hj) as (Hs & a & b & Hab & Ha & Hb).
    split; [| done]. apply lookup_seqZ in Ha, Hb. lia.
Qed.

(** The actors returned and the record of survivors go in step. *)
Lemma model_survivors renderer m t :
  exists renderer' actors entries,
    create_segmentation_3d_model label_reader lut renderer m t
    = Ok (renderer', actors) /\
    label_value <$> actors = (fun entry => Some (fst entry)) <$> entries /\
    (forall l s, (l, s) ∈ entries ->
       s = signature_of label_reader l /\
       (1 <= l <= Int_part (GetScalarRange (GetOutput label_reader)).2)%Z) /\
    (forall l,
       (1 <= l <= Int_part (GetScalarRange (GetOutput label_reader)).2)%Z ->
       GetNumberOfPoints (contour label_reader l) <> 0%nat ->
       (l, signature_of label_reader l) ∈ entries \/
       exists l',
         (1 <= l' < l)%Z /\ (l', signature_of label_reader l') ∈ entries /\
         are_polydata_similar (signature_of label_reader l)
                              (signature_of label_reader l') t = Ok true) /\
    (forall i j ei ej, (i < j)%nat ->
       entries !! i = Some ei -> entries !! j = Some ej ->
       (ei.1 < ej.1)%Z /\ are_polydata_similar ej.2 ei.2 t = Ok false).
Proof.
  destruct (reconstruct_survivors renderer t) as (st & E & H1 & H2 & H3).
  destruct (reconstruct_invariant label_reader lut renderer t)
    as (st' & E' & _ & _ & Hact & _).
  rewrite E in E'. injection E' as <-.
  unfold create_segmentation_3d_model. rewrite E. cbn [bind].
  by eexists _, _, (processed_signatures st).
Qed.

Lemma entry_actor (actors : list vtkActor) (entries : list (Z * signature)) l s :
  label_value <$> actors = (fun entry => Some (fst entry)) <$> entries ->
  (l, s) ∈ entries -> exists a, a ∈ actors /\ label_value a = Some l.
Proof.
  intros H Hin.
  assert (Hl : Some l ∈ label_value <$> actors).
  { rewrite H. apply list_elem_of_fmap. by exists (l, s). }
  apply list_elem_of_fmap in Hl as (a & Ha & Hin'). by exists a.
Qed.


End Scene.


(** X16: a run of the reconstruction leaves in the scene, in their order,
    the actors that were no reconstructed surfaces, followed by the new
    surfaces it returns; each new surface is flagged as a reconstructed
    one, is visible, drawn as a surface with opacity 0.9, carries its label
    and has the colour the table gives that label. *)
Theorem scene_after_reconstruction {filters : SurfaceFilters}
    label_reader lut renderer m t :
  exists renderer' actors,
    create_segmentation_3d_model label_reader lut renderer m t
    = Ok (renderer', actors) /\
    GetActors renderer' = other_actors renderer ++ actors /\
    other_actors renderer' = other_actors renderer /\
    Forall (fun a =>
              is_segmentation_3d a = true /\ Visibility a = true /\
              Representation a = Surface /\ Opacity a = 9 / 10 /\
              exists l, label_value a = Some l /\ Color a = (lut l).1)
           actors.
Proof.
  destruct (model_scene label_reader lut t) as (new & F & E).
  do 2 eexists. split; [apply E |]. cbn. split; [done |]. split.
  - unfold other_actors at 1. cbn. rewrite filter_app.
    unfold other_actors. rewrite filter_twice.
    rewrite (filter_none _ new); [apply app_nil_r |].
    by eapply made_not_other.
  - eapply Forall_impl; [exact F |]. intros a [l ->].
    destruct (make_actor_facts lut (smoothed_surface label_reader l) l)
      as (H1 & H2 & H3 & H4 & H5 & H6).
    repeat (split; [done |]). by exists l.
Qed.

(** X17: running the reconstruction again on the scene it has just
    filled returns the same surfaces and leaves the same actors in the
    scene: earlier surfaces are replaced, never piled up. *)
Theorem reconstruction_can_be_repeated {filters : SurfaceFilters}
    label_reader lut renderer m t :
  exists r1 r2 actors,
    create_segmentation_3d_model label_reader lut renderer m t
    = Ok (r1, actors) /\
    create_segmentation_3d_model label_reader lut r1 m t = Ok (r2, actors) /\
    GetActors r2 = GetActors r1.
Proof.
  destruct (model_scene label_reader lut t) as (new & F & E).
  do 3 eexists. split; [apply E |]. split; [apply E |]. cbn.
  f_equal. unfold other_actors. cbn. rewrite filter_app, filter_twice.
  rewrite (filter_none _ new); [apply app_nil_r |].
  by eapply made_not_other.
Qed.

(** X18: nothing is dropped without a representative.  For every label
    between 1 and floor(M) whose iso-surface has points, the surfaces
    returned contain either an actor for that label or an actor for a
    smaller label whose signature is similar to it at the threshold of the
    run. *)
Theorem every_surface_is_represented {filters : SurfaceFilters}
    label_reader lut renderer m t l :
  (1 <= l <= Int_part (GetScalarRange (GetOutput label_reader)).2)%Z ->
  GetNumberOfPoints (contour label_reader l) <> 0%nat ->
  exists renderer' actors,
    create_segmentation_3d_model label_reader lut renderer m t
    = Ok (renderer', actors) /\
    ((exists a, a ∈ actors /\ label_value a = Some l) \/
     (exists a l',
        a ∈ actors /\ label_value a = Some l' /\ (1 <= l' < l)%Z /\
        are_polydata_similar (signature_of label_reader l)
                             (signature_of label_reader l') t = Ok true)).
Proof.
  intros Hl Hpts.
  destruct (model_survivors label_reader lut renderer m t)
    as (r' & actors & entries & E & Hact & _ & Hrep & _).
  exists r', actors. split; [done |].
  destruct (Hrep l Hl Hpts) as [Hin | (l' & Hl' & Hin & Hs)].
  - left. by eapply entry_actor.
  - right. destruct (entry_actor _ _ _ _ Hact Hin) as (a & Ha & Hlab).
    by exists a, l'.
Qed.

Lemma every_surface_is_represented_witness :
  (1 <= 3 <= Int_part (GetScalarRange (GetOutput sample_reader)).2)%Z /\
  GetNumberOfPoints (contour (SurfaceFilters := sample_filters)
                             sample_reader 3) <> 0%nat /\
  exists renderer' actors,
    create_segmentation_3d_model (filters := sample_filters) sample_reader
      sample_lut empty_renderer ∅ (9 / 10) = Ok (renderer', actors) /\
    ((exists a, a ∈ actors /\ label_value a = Some 3%Z) \/
     (exists a l',
        a ∈ actors /\ label_value a = Some l' /\ (1 <= l' < 3)%Z /\
        are_polydata_similar
          (signature_of (filters := sample_filters) sample_reader 3)
          (signature_of (filters := sample_filters) sample_reader l')
          (9 / 10) = Ok true)).
Proof.
  assert (H1 : (1 <= 3
                <= Int_part (GetScalarRange (GetOutput sample_reader)).2)%Z)
    by (cbn; rewrite (Int_part_IZR 3); lia).
  assert (H2 : GetNumberOfPoints (contour (SurfaceFilters := sample_filters)
                                          sample_reader 3) <> 0%nat)
    by (cbn; lia).
  split; [exact H1 |]. split; [exact H2 |].
  exact (every_surface_is_represented (filters := sample_filters)
           sample_reader sample_lut empty_renderer ∅ (9 / 10) 3 H1 H2).
Defined.


(** X20: with a threshold above 1 nothing is discarded: every label
    between 1 and floor(M) whose iso-surface has points gets its actor. *)
Theorem threshold_above_one_keeps_all {filters : SurfaceFilters}
    label_reader lut renderer m t l :
  1 < t ->
  (1 <= l <= Int_part (GetScalarRange (GetOutput label_reader)).2)%Z ->
  GetNumberOfPoints (contour label_reader l) <> 0%nat ->
  exists renderer' actors a,
    create_segmentation_3d_model label_reader lut renderer m t
    = Ok (renderer', actors) /\
    a ∈ actors /\ label_value a = Some l.
Proof.
  intros Ht Hl Hpts.
  destruct (model_survivors label_reader lut renderer m t)
    as (r' & actors & entries & E & Hact & _ & Hrep & _).
  destruct (Hrep l Hl Hpts) as [Hin | (l' & Hl' & Hin & Hs)].
  - destruct (entry_actor _ _ _ _ Hact Hin) as (a & Ha & Hlab).
    by exists r', actors, a.
  - exfalso.
    destruct (GeometryMore.similar_true_inv _ _ _ Hs)
      as ((P1 & _) & (P2 & _) & P & _).
    unfold Spec.signature_of, calculate_polydata_signature in P1, P2, P.
    cbn in P1, P2, P.
    destruct (GeometryMore.ratio_of_counts_le_1
                (Z.of_nat (GetNumberOfPoints (smoothed_surface label_reader l)))
                (Z.of_nat (GetNumberOfPoints (smoothed_surface label_reader l'))))
      as [H _]; [lia | lia |].
    lra.
Qed.

Lemma threshold_above_one_keeps_all_witness :
  1 < 2 /\
  (1 <= 3 <= Int_part (GetScalarRange (GetOutput sample_reader)).2)%Z /\
  GetNumberOfPoints (contour (SurfaceFilters := sample_filters)
                             sample_reader 3) <> 0%nat /\
  exists renderer' actors a,
    create_segmentation_3d_model (filters := sample_filters) sample_reader
      sample_lut empty_renderer ∅ 2 = Ok (renderer', actors) /\
    a ∈ actors /\ label_value a = Some 3%Z.
Proof.
  assert (H0 : 1 < 2) by lra.
  assert (H1 : (1 <= 3
                <= Int_part (GetScalarRange (GetOutput sample_reader)).2)%Z)
    by (cbn; rewrite (Int_part_IZR 3); lia).
  assert (H2 : GetNumberOfPoints (contour (SurfaceFilters := sample_filters)
                                          sample_reader 3) <> 0%nat)
    by (cbn; lia).
  split; [exact H0 |]. split; [exact H1 |]. split; [exact H2 |].
  exact (threshold_above_one_keeps_all (filters := sample_filters)
           sample_reader sample_lut empty_renderer ∅ 2 3 H0 H1 H2).
Defined.

End SegmentationMore.

(** ** More on the mode toggle *)

Module CallbackMore.
Import Vtk Imaging Geometry Segmentation Callbacks Spec Notions.
Import Examples MoreExamples.
Import NumFacts GeometryFacts SegmentationFacts CallbackFacts SegmentationMore.
Local Open Scope R_scope.

Lemma SetEnabled_twice w :
  SetEnabled (negb (Enabled (SetEnabled (negb (Enabled w)) w)))
             (SetEnabled (negb (Enabled w)) w) = w.
Proof. destruct w as [[] ? ? ? ? ?]; reflexivity. Qed.

Lemma SetImageVisibility_twice (actor : option vtkImageActor) :
  (fun a => SetImageVisibility (negb (ImageVisibility a)) a)
  <$> ((fun a => SetImageVisibility (negb (ImageVisibility a)) a) <$> actor)
  = actor.
Proof. destruct actor as [[? ? ? ? []] |]; reflexivity. Qed.

Lemma fmap_twice {A} (f : A -> A) (m : gmap string A) :
  (forall x, f (f x) = x) -> f <$> (f <$> m) = m.
Proof.
  intros H. rewrite <- map_fmap_compose. rewrite <- (map_fmap_id m) at 2.
  apply map_fmap_ext. intros i x _. apply H.
Qed.

Section Toggle.
Context {filters : SurfaceFilters}.

(** X21: the keys N and L are switches: pressing either of them twice
    brings the callback, with all its sliders and label actors, back to the
    state it had. *)
Theorem toggle_keys_undo_themselves self keysym :
  lower keysym = "n" \/ lower keysym = "l" ->
  exists self1,
    SliderToggleCallback_call self keysym = Ok self1 /\
    SliderToggleCallback_call self1 keysym = Ok self.
Proof.
  intros [Hkey | Hkey]; unfold SliderToggleCallback_call; rewrite Hkey;
    cbn [String.eqb Ascii.eqb Bool.eqb andb].
  - eexists. split; [reflexivity |]. cbn.
    rewrite (fmap_twice _ _ SetEnabled_twice). by destruct self.
  - destruct (bool_decide (label_actors self = ∅)) eqn:He; cbn [negb].
    + exists self. split; [done |]. now rewrite He.
    + eexists. split; [reflexivity |]. cbn [label_actors].
      rewrite bool_decide_eq_false_2.
      2:{ apply bool_decide_eq_false in He. contradict He.
          by apply fmap_empty_inv in He. }
      cbn. rewrite (fmap_twice _ _ SetImageVisibility_twice). by destruct self.
Qed.

Lemma remove_first_app_r a others rest :
  a ∉ others -> remove_first a (others ++ a :: rest) = others ++ rest.
Proof.
  induction others as [| o others IH]; intros Hn; cbn.
  - by rewrite decide_True.
  - apply not_elem_of_cons in Hn as [Hne Hn].
    rewrite decide_False by done. now rewrite IH.
Qed.

Lemma remove_all others acts c :
  (forall a, a ∈ acts -> a ∉ others) ->
  foldl (fun r a => RemoveActor a r)
        {| GetActors := others ++ acts; clipping_range_resets := c |} acts
  = {| GetActors := others; clipping_range_resets := c |}.
Proof.
  induction acts as [| a rest IH]; intros Hn; cbn.
  - now rewrite app_nil_r.
  - unfold RemoveActor at 2. cbn.
    rewrite remove_first_app_r by (apply Hn; left).
    apply IH. intros b Hb. apply Hn. by right.
Qed.

(** Reconstructed surfaces differ from every other actor of the scene. *)
Lemma made_apart label_reader lut renderer new :
  Forall (fun a => exists l,
            a = make_actor (smoothed_surface label_reader l) lut l) new ->
  forall a, a ∈ new -> a ∉ other_actors renderer.
Proof.
  intros F a Ha Hin. rewrite Forall_forall in F.
  destruct (F a Ha) as [l ->].
  apply list_elem_of_filter in Hin as [Hflag _].
  destruct (make_actor_facts lut (smoothed_surface label_reader l) l) as [H _].
  rewrite H in Hflag. done.
Qed.

Lemma made_labelled label_reader lut new :
  Forall (fun a => exists l,
            a = make_actor (smoothed_surface label_reader l) lut l) new ->
  Forall (fun a => is_Some (label_value a)) new.
Proof.
  intros F. eapply Forall_impl; [exact F |]. intros a [l ->].
  destruct (make_actor_facts lut (smoothed_surface label_reader l) l)
    as (_ & _ & _ & _ & H & _).
  rewrite H. by eexists.
Qed.

Lemma create_segmentation_sliders_ok self :
  Forall (fun a => is_Some (label_value a)) (tg_segmentation_actors self) ->
  exists m, create_segmentation_sliders self = Ok m.
Proof.
  intros H. unfold create_segmentation_sliders.
  destruct (tg_segmentation_actors self) as [| a rest] eqn:E; [by eauto |].
  destruct (iren self); [| by eauto].
  by apply add_segmentation_sliders_ok.
Qed.

(** One press of M from the mode before the 3D mode. *)
Lemma enter_mode3 self keysym label_reader renderer lut :
  lower keysym = "m" ->
  ((mode_state self + 1) `mod` 4 = 3)%Z ->
  tg_label_reader self = Some label_reader ->
  tg_renderer self = Some renderer ->
  tg_lut self = Some lut ->
  exists self1 new,
    SliderToggleCallback_call self keysym = Ok self1 /\
    Forall (fun a => exists l,
              a = make_actor (smoothed_surface label_reader l) lut l) new /\
    create_segmentation_3d_model label_reader lut renderer
      (SetVisibility false <$> mesh_actors_dict self) 0
    = Ok ({| GetActors := other_actors renderer ++ new;
             clipping_range_resets := S (clipping_range_resets renderer) |},
          new) /\
    mode_state self1 = 3%Z /\
    tg_renderer self1
    = Some {| GetActors := other_actors renderer ++ new;
              clipping_range_resets := S (clipping_range_resets renderer) |} /\
    tg_segmentation_actors self1 = new /\
    (forall name a, mesh_actors_dict self1 !! name = Some a ->
                    Visibility a = false) /\
    create_segmentation_sliders
      {| sliders := sliders self1; label_actors := label_actors self1;
         mesh_actors_dict := mesh_actors_dict self1;
         tg_label_reader := tg_label_reader self1;
         tg_renderer := tg_renderer self1; tg_lut := tg_lut self1;
         iren := iren self; mode_state := 3;
         tg_segmentation_actors := new;
         segmentation_sliders := segmentation_sliders self |}
    = Ok (segmentation_sliders self1).
Proof.
  intros Hkey Hmode Hlr Hr Hlut.
  destruct (model_scene label_reader lut 0) as (new & F & E).
  unfold SliderToggleCallback_call. rewrite Hkey. cbn [String.eqb Ascii.eqb].
  cbn [Bool.eqb andb]. rewrite Hmode, Hlr, Hr, Hlut. cbn [Z.eqb Pos.eqb].
  rewrite E. cbn [bind].
  match goal with
  | |- context [create_segmentation_sliders ?u] =>
      destruct (create_segmentation_sliders_ok u) as [m Hm];
        [cbn; by eapply made_labelled |]
  end.
  rewrite Hm. cbn [bind]. eexists _, new. split; [reflexivity |].
  split; [done |]. split; [done |]. cbn.
  repeat (split; [done |]). split; [| exact Hm].
  intros name a Ha. apply lookup_fmap_Some in Ha as (b & <- & _). done.
Qed.

(** X22: entering the 3D mode and leaving it again gives the scene back:
    after the second press of M the mode is 0, the scene holds exactly the
    actors it held before that were no reconstructed surfaces, in their
    order; no reconstructed surface and no opacity slider of one is left;
    every slider is enabled, and every tissue mesh is visible again and
    drawn as a surface. *)
Theorem leaving_3d_mode_restores_scene self keysym label_reader renderer lut :
  lower keysym = "m" ->
  ((mode_state self + 1) `mod` 4 = 3)%Z ->
  tg_label_reader self = Some label_reader ->
  tg_renderer self = Some renderer ->
  tg_lut self = Some lut ->
  exists self1 self2 renderer2,
    SliderToggleCallback_call self keysym = Ok self1 /\
    SliderToggleCallback_call self1 keysym = Ok self2 /\
    mode_state self1 = 3%Z /\ mode_state self2 = 0%Z /\
    tg_renderer self2 = Some renderer2 /\
    GetActors renderer2 = other_actors renderer /\
    tg_segmentation_actors self2 = [] /\
    segmentation_sliders self2 = ∅ /\
    (forall name w, sliders self2 !! name = Some w -> Enabled w = true) /\
    (forall name, is_Some (sliders self2 !! name)
                  <-> is_Some (sliders self !! name)) /\
    (forall name a, mesh_actors_dict self2 !! name = Some a ->
                    Visibility a = true /\ Representation a = Surface) /\
    (forall name, is_Some (mesh_actors_dict self2 !! name)
                  <-> is_Some (mesh_actors_dict self !! name)).
Proof.
  intros Hkey Hmode Hlr Hr Hlut.
  destruct (enter_mode3 self keysym label_reader renderer lut
              Hkey Hmode Hlr Hr Hlut)
    as (self1 & new & E1 & F & _ & M1 & R1 & A1 & _ & _).
  assert (S1 : forall name, is_Some (sliders self1 !! name)
                            <-> is_Some (sliders self !! name)).
  { revert E1. unfold SliderToggleCallback_call. rewrite Hkey.
    cbn [String.eqb Ascii.eqb Bool.eqb andb].
    rewrite Hmode, Hlr, Hr, Hlut. cbn [Z.eqb Pos.eqb].
    destruct (create_segmentation_3d_model _ _ _ _ _) as [[r a] |];
      cbn [bind]; [| done].
    destruct (create_segmentation_sliders _); cbn [bind]; [| done].
    intros [= <-] name. cbn [sliders]. rewrite map_lookup_imap.
    destruct (sliders self !! name); cbn; split; intros [? ?]; by eauto. }
  assert (D1 : forall name, is_Some (mesh_actors_dict self1 !! name)
                            <-> is_Some (mesh_actors_dict self !! name)).
  { revert E1. unfold SliderToggleCallback_call. rewrite Hkey.
    cbn [String.eqb Ascii.eqb Bool.eqb andb].
    rewrite Hmode, Hlr, Hr, Hlut. cbn [Z.eqb Pos.eqb].
    destruct (create_segmentation_3d_model _ _ _ _ _) as [[r a] |];
      cbn [bind]; [| done].
    destruct (create_segmentation_sliders _); cbn [bind]; [| done].
    intros [= <-] name. cbn [mesh_actors_dict]. rewrite lookup_fmap.
    destruct (mesh_actors_dict self !! name); cbn; split; intros [? ?];
      by eauto. }
  exists self1. rewrite E1.
  unfold SliderToggleCallback_call. rewrite Hkey.
  cbn [String.eqb Ascii.eqb Bool.eqb andb]. rewrite M1, R1, A1.
  change ((3 + 1) `mod` 4)%Z with 0%Z. cbn [Z.eqb].
  assert (Hrem : remove_segmentation_actors new
                   (Some {| GetActors := other_actors renderer ++ new;
                            clipping_range_resets :=
                              S (clipping_range_resets renderer) |})
                 = Ok (Some {| GetActors := other_actors renderer;
                               clipping_range_resets :=
                                 S (clipping_range_resets renderer) |})).
  { unfold remove_segmentation_actors.
    pose proof (remove_all (other_actors renderer) new
                  (S (clipping_range_resets renderer))
                  (made_apart label_reader lut renderer new F)) as H.
    destruct new as [| a rest]; [by rewrite app_nil_r | by rewrite H]. }
  rewrite Hrem. cbn [bind].
  eexists _, _. split; [done |]. split; [reflexivity |]. cbn.
  repeat (split; [done |]). split; [| split; [| split]].
  - intros name w Hw. apply lookup_fmap_Some in Hw as (b & <- & _). done.
  - intros name. rewrite lookup_fmap, <- S1.
    destruct (sliders self1 !! name); cbn; split; intros [? ?]; by eauto.
  - intros name a Ha. rewrite map_lookup_imap in Ha.
    destruct (mesh_actors_dict self1 !! name) as [b |]; [| done].
    cbn in Ha. rewrite lookup_fmap in Ha.
    destruct (sliders self1 !! name); cbn in Ha; injection Ha as <-; done.
  - intros name. rewrite map_lookup_imap, <- D1.
    destruct (mesh_actors_dict self1 !! name); cbn; split; intros [? ?];
      by eauto.
Qed.

(** The sliders the loop of [create_segmentation_sliders] leaves in the
    dictionary, when the actors carry pairwise different labels. *)
Lemma add_segmentation_sliders_spec actors idx acc :
  NoDup (label_value <$> actors) ->
  Forall (fun a => is_Some (label_value a)) actors ->
  exists m,
    add_segmentation_sliders idx actors acc = Ok m /\
    (forall (i : nat) a l,
       actors !! i = Some a -> label_value a = Some l ->
       m !! l = Some (segmentation_slider (idx + Z.of_nat i) l (Color a))) /\
    (forall l, Some l ∉ label_value <$> actors -> m !! l = acc !! l).
Proof.
  revert idx acc. induction actors as [| a rest IH]; intros idx acc Hnd Hlab.
  - exists acc. cbn. split; [done |]. split; [| done]. intros i a l H. done.
  - rewrite fmap_cons in Hnd. apply NoDup_cons in Hnd as [Hnew Hnd].
    apply Forall_cons in Hlab as [[l0 Hl0] Hlab]. cbn. rewrite Hl0.
    assert (Hw : forall x0 x1,
               (x0, x1) = (if (idx `mod` 2 =? 0)%Z
                           then (right_x0_col1, right_x1_col1)
                           else (right_x0_col2, right_x1_col2)) ->
               {| Enabled := true; SliderValue := 9 / 10;
                  title := "Seg " +:+ pretty l0;
                  p1 := (x0, top_y - IZR (idx `div` 2) * step_y);
                  p2 := (x1, top_y - IZR (idx `div` 2) * step_y);
                  title_color := Color a |}
               = segmentation_slider idx l0 (Color a)).
    { intros x0 x1 E. unfold segmentation_slider.
      destruct (idx `mod` 2 =? 0)%Z; by injection E as -> ->. }
    destruct (if (idx `mod` 2 =? 0)%Z
              then (right_x0_col1, right_x1_col1)
              else (right_x0_col2, right_x1_col2)) as [x0 x1] eqn:Ex.
    rewrite (Hw x0 x1 eq_refl).
    destruct (IH (idx + 1)%Z
                 (<[l0 := segmentation_slider idx l0 (Color a)]> acc)
                 Hnd Hlab) as (m & E & Hin & Hout).
    exists m. split; [done |]. split.
    + intros [| i] b l Hb Hl.
      * injection Hb as <-. rewrite Hl0 in Hl. injection Hl as <-.
        rewrite Hout by (by rewrite <- Hl0).
        rewrite lookup_insert_eq. by rewrite Z.add_0_r.
      * cbn in Hb. rewrite (Hin i b l Hb Hl). do 2 f_equal. lia.
    + intros l Hl. apply not_elem_of_cons in Hl as [Hne Hl].
      rewrite (Hout l Hl). apply lookup_insert_ne. congruence.
Qed.

(** X23: entering the 3D mode with an interactor gives every
    reconstructed surface its own opacity slider and no other: the surface
    listed at position [i] owns the slider stored under its label, titled
    "Seg <label>", enabled, set to 0.9, in the colour of the surface, placed
    in column [i mod 2] and row [i div 2]. *)
Theorem one_slider_per_surface self keysym label_reader renderer lut :
  lower keysym = "m" ->
  ((mode_state self + 1) `mod` 4 = 3)%Z ->
  tg_label_reader self = Some label_reader ->
  tg_renderer self = Some renderer ->
  tg_lut self = Some lut ->
  iren self = true ->
  segmentation_sliders self = ∅ ->
  exists self1,
    SliderToggleCallback_call self keysym = Ok self1 /\
    (forall (i : nat) a,
       tg_segmentation_actors self1 !! i = Some a ->
       exists l,
         label_value a = Some l /\
         segmentation_sliders self1 !! l
         = Some (segmentation_slider (Z.of_nat i) l (Color a))) /\
    (forall l w,
       segmentation_sliders self1 !! l = Some w ->
       exists a, a ∈ tg_segmentation_actors self1 /\ label_value a = Some l).
Proof.
  intros Hkey Hmode Hlr Hr Hlut Hiren Hempty.
  destruct (enter_mode3 self keysym label_reader renderer lut
              Hkey Hmode Hlr Hr Hlut)
    as (self1 & new & E1 & F & Ec & _ & _ & A1 & _ & Hs).
  exists self1. split; [done |]. rewrite A1.
  destruct (model_survivors label_reader lut renderer
              (SetVisibility false <$> mesh_actors_dict self) 0)
    as (r' & actors & entries & Ec' & Hact & _ & _ & Hpair).
  rewrite Ec in Ec'. injection Ec' as _ <-.
  assert (Hnd : NoDup (label_value <$> new)).
  { rewrite Hact. apply NoDup_alt. intros i j x Hi Hj.
    rewrite list_lookup_fmap in Hi, Hj.
    destruct (entries !! i) as [ei |] eqn:Ei; [| done].
    destruct (entries !! j) as [ej |] eqn:Ej; [| done].
    cbn in Hi, Hj. injection Hi as <-. injection Hj as Hj.
    destruct (Nat.lt_total i j) as [Hlt | [Heq | Hlt]]; [| done |].
    - destruct (Hpair i j ei ej Hlt Ei Ej) as [H _]. lia.
    - destruct (Hpair j i ej ei Hlt Ej Ei) as [H _]. lia. }
  destruct (add_segmentation_sliders_spec new 0 ∅ Hnd
              (made_labelled label_reader lut new F))
    as (m & Em & Hin & Hout).
  revert Hs. unfold create_segmentation_sliders.
  cbn [tg_segmentation_actors iren segmentation_sliders].
  rewrite Hiren, Hempty.
  destruct new as [| a0 rest] eqn:En.
  - intros [= <-]. split; [intros i a H; done |].
    intros l w H. by rewrite lookup_empty in H.
  - rewrite Em. intros [= <-]. split.
    + intros i a Ha.
      pose proof (made_labelled label_reader lut _ F) as Hl.
      rewrite Forall_forall in Hl.
      destruct (Hl a (list_elem_of_lookup_2 _ _ _ Ha)) as [l Hla].
      exists l. split; [done |]. by rewrite (Hin i a l Ha Hla).
    + intros l w Hw.
      destruct (decide (Some l ∈ label_value <$> a0 :: rest)) as [Hd | Hd].
      * apply list_elem_of_fmap in Hd as (a & Ha & Hd). by exists a.
      * rewrite (Hout l Hd), lookup_empty in Hw. done.
Qed.

End Toggle.

Lemma one_slider_per_surface_witness :
  lower "M" = "m" /\
  ((mode_state sample_toggle + 1) `mod` 4 = 3)%Z /\
  tg_label_reader sample_toggle = Some sample_reader /\
  tg_renderer sample_toggle = Some empty_renderer /\
  tg_lut sample_toggle = Some sample_lut /\
  iren sample_toggle = true /\
  segmentation_sliders sample_toggle = ∅ /\
  exists self1,
    SliderToggleCallback_call (filters := sample_filters) sample_toggle "M"
    = Ok self1 /\
    (forall (i : nat) a,
       tg_segmentation_actors self1 !! i = Some a ->
       exists l,
         label_value a = Some l /\
         segmentation_sliders self1 !! l
         = Some (segmentation_slider (Z.of_nat i) l (Color a))) /\
    (forall l w,
       segmentation_sliders self1 !! l = Some w ->
       exists a, a ∈ tg_segmentation_actors self1 /\ label_value a = Some l).
Proof.
  do 7 (split; [reflexivity |]).
  exact (one_slider_per_surface (filters := sample_filters)
           sample_toggle "M" sample_reader empty_renderer sample_lut
           eq_refl eq_refl eq_refl eq_refl eq_refl eq_refl eq_refl).
Defined.

Lemma leaving_3d_mode_restores_scene_witness :
  lower "M" = "m" /\
  ((mode_state sample_toggle + 1) `mod` 4 = 3)%Z /\
  tg_label_reader sample_toggle = Some sample_reader /\
  tg_renderer sample_toggle = Some empty_renderer /\
  tg_lut sample_toggle = Some sample_lut /\
  exists self1 self2 renderer2,
    SliderToggleCallback_call (filters := sample_filters) sample_toggle "M"
    = Ok self1 /\
    SliderToggleCallback_call (filters := sample_filters) self1 "M"
    = Ok self2 /\
    mode_state self1 = 3%Z /\ mode_state self2 = 0%Z /\
    tg_renderer self2 = Some renderer2 /\
    GetActors renderer2 = other_actors empty_renderer /\
    tg_segmentation_actors self2 = [] /\
    segmentation_sliders self2 = ∅ /\
    (forall name w, sliders self2 !! name = Some w -> Enabled w = true) /\
    (forall name, is_Some (sliders self2 !! name)
                  <-> is_Some (sliders sample_toggle !! name)) /\
    (forall name a, mesh_actors_dict self2 !! name = Some a ->
                    Visibility a = true /\ Representation a = Surface) /\
    (forall name, is_Some (mesh_actors_dict self2 !! name)
                  <-> is_Some (mesh_actors_dict sample_toggle !! name)).
Proof.
  do 5 (split; [reflexivity |]).
  exact (leaving_3d_mode_restores_scene (filters := sample_filters)
           sample_toggle "M" sample_reader empty_renderer sample_lut
           eq_refl eq_refl eq_refl eq_refl eq_refl).
Defined.

Lemma toggle_keys_undo_themselves_witness :
  (lower "N" = "n" \/ lower "N" = "l") /\
  exists self1,
    SliderToggleCallback_call (filters := sample_filters) sample_toggle "N"
    = Ok self1 /\
    SliderToggleCallback_call (filters := sample_filters) self1 "N"
    = Ok sample_toggle.
Proof.
  split; [left; reflexivity |].
  exact (toggle_keys_undo_themselves (filters := sample_filters)
           sample_toggle "N" (or_introl eq_refl)).
Defined.

End CallbackMore.

(** ** The colour table *)

Module LutFacts.
Import Lut NumFacts.
Local Open Scope R_scope.









(** X25: in exact arithmetic no two labels from 1 to 255 get the same
    hue. *)
Theorem hues_are_distinct i j :
  (1 <= i <= 255)%Z -> (1 <= j <= 255)%Z -> i <> j -> hue i <> hue j.
Proof.
  intros Hi Hj Hne E. unfold hue, mod_one in E.
  set (ki := Int_part (IZR i * (6180339887 / 10000000000))) in E.
  set (kj := Int_part (IZR j * (6180339887 / 10000000000))) in E.
  assert (EZ : IZR ((i - j) * 6180339887) = IZR ((ki - kj) * 10000000000)).
  { rewrite !mult_IZR, !minus_IZR. lra. }
  apply eq_IZR in EZ.
  assert (D : (10000000000 | 6180339887 * (i - j))%Z)
    by (exists (ki - kj)%Z; lia).
  apply Z.gauss in D; [| reflexivity].
  destruct D as [q Hq]. lia.
Qed.

Lemma hues_are_distinct_witness :
  (1 <= 1 <= 255)%Z /\ (1 <= 2 <= 255)%Z /\ 1%Z <> 2%Z /\ hue 1 <> hue 2.
Proof.
  assert (H1 : (1 <= 1 <= 255)%Z) by lia.
  assert (H2 : (1 <= 2 <= 255)%Z) by lia.
  assert (H3 : 1%Z <> 2%Z) by lia.
  split; [exact H1 |]. split; [exact H2 |]. split; [exact H3 |].
  exact (hues_are_distinct 1 2 H1 H2 H3).
Defined.

End LutFacts.

(** ** Finding the mesh file of a tissue *)

Module FileFacts.
Import FileUtils Callbacks Notions MoreExamples.

Lemma append_cons c a rest : String c a +:+ rest = String c (a +:+ rest).
Proof. reflexivity. Qed.

Lemma append_empty rest : EmptyString +:+ rest = rest.
Proof. reflexivity. Qed.

Lemma prefix_spec a b :
  String.prefix a b = true <-> exists rest, b = a +:+ rest.
Proof.
  revert b. induction a as [| c a IH]; intros b.
  - destruct b; cbn; (split; [by eexists | done]).
  - destruct b as [| c' b]; cbn; [split; [done | by intros [? ?]] |].
    destruct (ascii_dec c c') as [<- | Hne].
    + rewrite IH. split; intros [rest E]; exists rest;
        rewrite append_cons in *; congruence.
    + split; [done |]. intros [rest E]. rewrite append_cons in E. congruence.
Qed.

(** The model of Python's [token in stem] is the substring test. *)
Lemma contains_spec token stem :
  contains token stem = true <-> is_substring token stem.
Proof.
  unfold is_substring. split.
  - induction stem as [| c stem IH]; cbn [contains]; rewrite orb_true_iff.
    + intros [H | H]; [| done]. apply prefix_spec in H as [rest E].
      by exists EmptyString, rest.
    + intros [H | H].
      * apply (prefix_spec token (String c stem)) in H as [rest E].
        by exists EmptyString, rest.
      * destruct (IH H) as (before & after & ->).
        exists (String c before), after. by rewrite append_cons.
  - intros (before & after & ->).
    induction before as [| c before IH].
    + assert (H : String.prefix token (token +:+ after) = true)
        by (apply prefix_spec; by exists after).
      rewrite append_empty.
      destruct (token +:+ after); cbn [contains]; rewrite H; done.
    + rewrite append_cons. cbn [contains]. rewrite IH. apply orb_true_r.
Qed.

Lemma first_match_Some token vtk_map path :
  first_match token vtk_map = Some path <->
  exists before stem after,
    vtk_map = before ++ (stem, path) :: after /\
    contains token stem = true /\
    forall s p, (s, p) ∈ before -> contains token s = false.
Proof.
  induction vtk_map as [| [s p] rest IH]; cbn.
  - split; [done |]. intros (b & ? & ? & E & _). by destruct b.
  - destruct (contains token s) eqn:Ec.
    + split.
      * intros [= ->]. exists [], s, rest. split; [done |]. split; [done |].
        intros ? ? H. by apply elem_of_nil in H.
      * intros ([| [s' p'] b] & stem & after & E & Hc & Hb).
        -- by injection E as -> -> ->.
        -- injection E as <- <- ->.
           rewrite (Hb s p) in Ec by left. done.
    + rewrite IH. split.
      * intros (b & stem & after & -> & Hc & Hb).
        exists ((s, p) :: b), stem, after. split; [done |]. split; [done |].
        intros s' p' H. apply elem_of_cons in H as [[= -> ->] | H]; [done |].
        by eapply Hb.
      * intros ([| [s' p'] b] & stem & after & E & Hc & Hb).
        -- injection E as -> -> ->. congruence.
        -- injection E as -> -> ->. exists b, stem, after.
           split; [done |]. split; [done |]. intros ? ? H. eapply Hb. by right.
Qed.

Lemma first_match_None token vtk_map :
  first_match token vtk_map = None <->
  forall s p, (s, p) ∈ vtk_map -> contains token s = false.
Proof.
  induction vtk_map as [| [s p] rest IH]; cbn.
  - split; [| done]. intros _ ? ? H. by apply elem_of_nil in H.
  - destruct (contains token s) eqn:Ec.
    + split; [done |]. intros H. rewrite (H s p) in Ec by left. done.
    + rewrite IH. split.
      * intros H s' p' Hin.
        apply elem_of_cons in Hin as [[= -> ->] | Hin]; [done | by eapply H].
      * intros H s' p' Hin. eapply H. by right.
Qed.

(** X26: the file of a tissue is the first one, in the order of the map,
    whose stem contains the tissue's token; files listed after it are not
    looked at, also when one of them carries the token as its whole name.
    The tissue name is matched without regard to case. *)
Theorem resolve_returns_first_match tissue token vtk_map before stem path
    after :
  dict_get TISSUE_TO_STEM (lower tissue) = Some token ->
  vtk_map = before ++ (stem, path) :: after ->
  is_substring token stem ->
  (forall s p, (s, p) ∈ before -> ~ is_substring token s) ->
  resolve_vtk_file tissue vtk_map = inr path.
Proof.
  intros Hkey Hmap Hsub Hbefore. unfold resolve_vtk_file. rewrite Hkey.
  assert (H : first_match token vtk_map = Some path).
  { apply first_match_Some. exists before, stem, after. split; [done |].
    split; [by apply contains_spec |]. intros s p Hin.
    destruct (contains token s) eqn:Ec; [| done].
    apply contains_spec in Ec. by destruct (Hbefore s p Hin). }
  now rewrite H.
Qed.

Lemma resolve_returns_first_match_witness :
  dict_get TISSUE_TO_STEM (lower "Liver_Segment_I") = Some "LiverSegment_I" /\
  segment_files
  = [] ++ ("LiverSegment_II", "/data/LiverSegment_II.vtk")
          :: [("LiverSegment_I", "/data/LiverSegment_I.vtk")] /\
  is_substring "LiverSegment_I" "LiverSegment_II" /\
  (forall s p : string,
     (s, p) ∈ ([] : dict string) -> ~ is_substring "LiverSegment_I" s) /\
  resolve_vtk_file "Liver_Segment_I" segment_files
  = inr "/data/LiverSegment_II.vtk".
Proof.
  assert (H1 : dict_get TISSUE_TO_STEM (lower "Liver_Segment_I")
               = Some "LiverSegment_I") by reflexivity.
  assert (H2 : segment_files
               = [] ++ ("LiverSegment_II", "/data/LiverSegment_II.vtk")
                       :: [("LiverSegment_I", "/data/LiverSegment_I.vtk")])
    by reflexivity.
  assert (H3 : is_substring "LiverSegment_I" "LiverSegment_II")
    by (exists EmptyString, "I"; reflexivity).
  assert (H4 : forall s p : string,
             (s, p) ∈ ([] : dict string) -> ~ is_substring "LiverSegment_I" s)
    by (intros s p H; by apply elem_of_nil in H).
  split; [exact H1 |]. split; [exact H2 |]. split; [exact H3 |].
  split; [exact H4 |].
  exact (resolve_returns_first_match "Liver_Segment_I" "LiverSegment_I"
           segment_files [] "LiverSegment_II" "/data/LiverSegment_II.vtk"
           [("LiverSegment_I", "/data/LiverSegment_I.vtk")] H1 H2 H3 H4).
Defined.

(** X27: for a tissue name in ASCII, the lookup raises [KeyError] in
    exactly two cases: the lower-cased name is no key of the tissue table,
    or no stem of the map contains the tissue's token; whenever it returns
    a path, that path is listed in the map under a stem containing the
    token. *)
Theorem resolve_fails_exactly tissue vtk_map :
  is_ascii tissue = true ->
  (forall path,
     resolve_vtk_file tissue vtk_map = inr path ->
     exists token stem,
       dict_get TISSUE_TO_STEM (lower tissue) = Some token /\
       (stem, path) ∈ vtk_map /\ is_substring token stem) /\
  ((exists msg, resolve_vtk_file tissue vtk_map = inl (KeyError msg)) <->
   dict_get TISSUE_TO_STEM (lower tissue) = None \/
   exists token,
     dict_get TISSUE_TO_STEM (lower tissue) = Some token /\
     forall stem path, (stem, path) ∈ vtk_map -> ~ is_substring token stem).
Proof.
  intros _. unfold resolve_vtk_file.
  destruct (dict_get TISSUE_TO_STEM (lower tissue)) as [token |] eqn:Ek.
  2:{ split; [done |]. split; [by left | by eauto]. }
  destruct (first_match token vtk_map) as [path |] eqn:Ef.
  - apply first_match_Some in Ef
      as (before & stem & after & -> & Hc & _).
    apply contains_spec in Hc. split.
    + intros ? [= <-]. exists token, stem. split; [done |].
      split; [| done]. apply elem_of_app. right. left.
    + split; [by intros [? ?] |].
      intros [? | (token' & [= <-] & Hn)]; [done |].
      destruct (Hn stem path); [| done]. apply elem_of_app. right. left.
  - split; [done |]. split; [| by eauto]. intros _. right.
    exists token. split; [done |]. intros stem path Hin Hsub.
    apply contains_spec in Hsub.
    rewrite (proj1 (first_match_None _ _) Ef stem path Hin) in Hsub. done.
Qed.

Lemma resolve_fails_exactly_witness :
  is_ascii "Liver" = true /\
  (forall path,
     resolve_vtk_file "Liver" segment_files = inr path ->
     exists token stem,
       dict_get TISSUE_TO_STEM (lower "Liver") = Some token /\
       (stem, path) ∈ segment_files /\ is_substring token stem) /\
  ((exists msg, resolve_vtk_file "Liver" segment_files = inl (KeyError msg)) <->
   dict_get TISSUE_TO_STEM (lower "Liver") = None \/
   exists token,
     dict_get TISSUE_TO_STEM (lower "Liver") = Some token /\
     forall stem path,
       (stem, path) ∈ segment_files -> ~ is_substring token stem).
Proof.
  split; [reflexivity |].
  exact (resolve_fails_exactly "Liver" segment_files eq_refl).
Defined.

End FileFacts.
